(** * terraform-provider-trinogateway: the gateway client and the backend
      resource, embedded in Rocq

    Sources embedded:
    - [internal/trinogatewayclient/client.go] (module [trinogatewayclient]),
    - [internal/provider/provider.go] and the backend resource file of the
      same package (module [provider]).

    Conventions.  A Go [string] and a Go [[]byte] are byte sequences: both are
    [string] here (a list of 8-bit characters).  A Go [error] is represented
    by its message, [nil] by [None].  A pointer that the code compares with
    [nil] ([*Auth], [foundBackend]) is an [option], and so is each entry of
    a [[]*Backend]: [None] is a nil entry, through which the code cannot
    read a field without a panic.  Calls that leave the
    process (an HTTP exchange, a call through the client interface) are
    answered by a function carried in the receiver and are written to a
    trace that each operation returns next to its result. *)

From Stdlib Require Import String Ascii List ZArith Bool Arith Lia DecimalString.
Import ListNotations.

Local Open Scope list_scope.
Local Open Scope string_scope.

(** ** Go runtime and standard library pieces used by the sources *)

Module strings.

(** [strings.HasSuffix]:
    [len(s) >= len(suffix) && s[len(s)-len(suffix):] == suffix]. *)
Definition HasSuffix (s suffix : string) : bool :=
  (String.length suffix <=? String.length s)%nat
  && String.eqb
       (substring (String.length s - String.length suffix)
                  (String.length suffix) s)
       suffix.

(** [strings.TrimSuffix]: [s] without the suffix when it has it, else [s]. *)
Definition TrimSuffix (s suffix : string) : string :=
  if HasSuffix s suffix
  then substring 0 (String.length s - String.length suffix) s
  else s.

(** [strings.Contains] as a proposition: [sub] occurs in [s]. *)
Definition Contains (s sub : string) : Prop :=
  exists pre post, s = pre ++ sub ++ post.

End strings.

Module fmt.

(** The verb [%d] applied to an [int]: signed decimal, no padding. *)
Definition d (n : Z) : string := NilEmpty.string_of_int (Z.to_int n).

End fmt.

(** The slice expression [b[:n]] for [n <= len(b)]. *)
Definition slice_to (b : string) (n : nat) : string := substring 0 n b.

(** ** Package net/http, as far as the client uses it *)

Module http.

Definition MethodGet : string := "GET".
Definition MethodPost : string := "POST".

Record Request := {
  Method : string;
  URL : string;
  (** [None] is the [nil] body of a GET. *)
  ReqBody : option string;
  (** Set by [SetBasicAuth]: login and password of the Authorization
      header; [None] when the header is absent. *)
  BasicAuth : option (string * string)
}.

(** What [io.ReadAll(response.Body)] returns: the bytes read and the
    read error, if any. *)
Record ReadAll := {
  data : string;
  err : option string
}.

Record Response := {
  StatusCode : Z;
  Body : ReadAll
}.

(** A response whose body arrived whole. *)
Definition complete (code : Z) (body : string) : Response :=
  {| StatusCode := code; Body := {| data := body; err := None |} |}.

(** The method [Do] of [http.Client]: the exchange with the server, which
    gives a transport error or the response. *)
Definition Client := Request -> string + Response.

Definition SetBasicAuth (request : Request) (username password : string)
  : Request :=
  {| Method := Method request; URL := URL request;
     ReqBody := ReqBody request;
     BasicAuth := Some (username, password) |}.

End http.

(** ** Package trinogatewayclient (client.go) *)

Module trinogatewayclient.

Definition maxResponseBodyLogSize : nat := 1024.

Record Backend := {
  Name : string;
  ProxyTo : string;
  RoutingGroup : string;
  Active : bool;
  ExternalUrl : string
}.

Record Auth := {
  Login : string;
  Password : string
}.

(** The interface [TrinoGatewayClient]: three methods on a receiver. *)
Class TrinoGatewayClient (C : Type) := {
  AddOrUpdateBackend : C -> Backend -> option string;
  DeleteBackend : C -> string -> option string;
  GetAllBackends : C -> string + list (option Backend)
}.

Record trinoGatewayClientHttpImpl := {
  httpclient : http.Client;
  auth : option Auth;
  endpoint : string
}.

(** [fmt.Errorf("bad http response code: %d, body: %s", code, body[:min(len(body), maxResponseBodyLogSize)])],
    the expression the three operations share verbatim. *)
Definition badResponse (StatusCode : Z) (responseBody : string) : string :=
  "bad http response code: " ++ fmt.d StatusCode ++ ", body: "
    ++ slice_to responseBody
         (Nat.min (String.length responseBody) maxResponseBodyLogSize).

Section Libraries.

(** [encoding/json] and [net/url] are not part of the repository: the
    marshaller, the decoder into a [[]*Backend] and the URL parser behind
    [http.NewRequest] are parameters.  [url_Parse] gives the parse error,
    if any. *)
Variable json_Marshal : Backend -> string + string.
Variable json_Unmarshal : string -> string + list (option Backend).
Variable url_Parse : string -> option string.

(** [http.NewRequest] with one of the two method constants: it fails
    exactly when the URL does not parse. *)
Definition http_NewRequest (method url : string) (body : option string)
  : string + http.Request :=
  match url_Parse url with
  | Some e => inl e
  | None =>
      inr {| http.Method := method; http.URL := url;
             http.ReqBody := body; http.BasicAuth := None |}
  end.

Definition getFullUrl (tg : trinoGatewayClientHttpImpl) (subpath : string)
  : string :=
  strings.TrimSuffix (endpoint tg) "/" ++ subpath.

Definition addAuth (tg : trinoGatewayClientHttpImpl)
  (request : http.Request) : http.Request :=
  match auth tg with
  | Some a => http.SetBasicAuth request (Login a) (Password a)
  | None => request
  end.

(** Each operation returns the requests it handed to [httpclient.Do], in
    order, and its Go result. *)
Definition HttpImpl_AddOrUpdateBackend (tg : trinoGatewayClientHttpImpl)
  (backend : Backend) : list http.Request * option string :=
  match json_Marshal backend with
  | inl e => ([], Some ("cant marshal backend: " ++ e))
  | inr requestBody =>
      match http_NewRequest http.MethodPost
              (getFullUrl tg "/entity?entityType=GATEWAY_BACKEND")
              (Some requestBody) with
      | inl e => ([], Some ("cant create request: " ++ e))
      | inr request =>
          let request := addAuth tg request in
          match httpclient tg request with
          | inl e => ([request], Some ("cant send request: " ++ e))
          | inr response =>
              (* responseBody, _ := io.ReadAll(response.Body) *)
              let responseBody := http.data (http.Body response) in
              if negb (http.StatusCode response =? 200)%Z
              then ([request],
                    Some (badResponse (http.StatusCode response)
                            responseBody))
              else ([request], None)
          end
      end
  end.

Definition HttpImpl_DeleteBackend (tg : trinoGatewayClientHttpImpl)
  (name : string) : list http.Request * option string :=
  match http_NewRequest http.MethodPost
          (getFullUrl tg "/gateway/backend/modify/delete")
          (Some name) with
  | inl e => ([], Some ("cant create request: " ++ e))
  | inr request =>
      let request := addAuth tg request in
      match httpclient tg request with
      | inl e => ([request], Some ("cant send request: " ++ e))
      | inr response =>
          (* responseBody, _ := io.ReadAll(response.Body) *)
          let responseBody := http.data (http.Body response) in
          if negb (http.StatusCode response =? 200)%Z
          then ([request],
                Some (badResponse (http.StatusCode response) responseBody))
          else ([request], None)
      end
  end.

Definition HttpImpl_GetAllBackends (tg : trinoGatewayClientHttpImpl)
  : list http.Request * (string + list (option Backend)) :=
  match http_NewRequest http.MethodGet
          (getFullUrl tg "/entity/GATEWAY_BACKEND") None with
  | inl e => ([], inl ("cant create request: " ++ e))
  | inr request =>
      let request := addAuth tg request in
      match httpclient tg request with
      | inl e => ([request], inl ("cant send request: " ++ e))
      | inr response =>
          (* responseBody, err := io.ReadAll(response.Body) *)
          let responseBody := http.data (http.Body response) in
          match http.err (http.Body response) with
          | Some _ => ([request], inl "cant read response body")
          | None =>
              if negb (http.StatusCode response =? 200)%Z
              then ([request],
                    inl (badResponse (http.StatusCode response)
                           responseBody))
              else
                match json_Unmarshal responseBody with
                | inl e =>
                    ([request],
                     inl ("cant unmarshal response: " ++ e ++ ", body: "
                            ++ slice_to responseBody
                                 (Nat.min (String.length responseBody)
                                    maxResponseBodyLogSize)))
                | inr allBackends => ([request], inr allBackends)
                end
          end
      end
  end.

(** The implementation satisfies the interface: the Go results alone. *)
#[export] Instance trinoGatewayClientHttpImpl_client
  : TrinoGatewayClient trinoGatewayClientHttpImpl := {
  AddOrUpdateBackend tg backend := snd (HttpImpl_AddOrUpdateBackend tg backend);
  DeleteBackend tg name := snd (HttpImpl_DeleteBackend tg name);
  GetAllBackends tg := snd (HttpImpl_GetAllBackends tg)
}.

(** [http.DefaultClient], the process-wide client. *)
Variable http_DefaultClient : http.Client.

(** [NewTrinoGatewayClient]; its error result is always [nil]. *)
Definition NewTrinoGatewayClient (endpoint : string) (auth : option Auth)
  : string + trinoGatewayClientHttpImpl :=
  inr {| auth := auth; endpoint := endpoint;
         httpclient := http_DefaultClient |}.

End Libraries.

End trinogatewayclient.

(** ** terraform-plugin-framework, as far as the provider uses it *)

Module types.

(** [types.String]: null, unknown or a known value.  The zero value of the
    Go type is null. *)
Inductive String := StringNull | StringUnknown | StringValue (value : string).

Inductive Bool := BoolNull | BoolUnknown | BoolValue (value : bool).

Definition IsNull (s : String) : bool :=
  match s with StringNull => true | _ => false end.

Definition IsUnknown (s : String) : bool :=
  match s with StringUnknown => true | _ => false end.

(** [ValueString]: the known value, or the empty string for null and
    unknown. *)
Definition ValueString (s : String) : string :=
  match s with StringValue value => value | _ => "" end.

(** [ValueBool]: the known value, or [false] for null and unknown. *)
Definition ValueBool (b : Bool) : bool :=
  match b with BoolValue value => value | _ => false end.

End types.

Module diag.

Inductive Severity := SeverityError | SeverityWarning.

Record Diagnostic := {
  severity : Severity;
  Summary : string;
  Detail : string
}.

Definition Diagnostics := list Diagnostic.

Definition Equal (a b : Diagnostic) : bool :=
  match severity a, severity b with
  | SeverityError, SeverityError | SeverityWarning, SeverityWarning =>
      String.eqb (Summary a) (Summary b) && String.eqb (Detail a) (Detail b)
  | _, _ => false
  end.

Definition Contains (diags : Diagnostics) (d : Diagnostic) : bool :=
  existsb (Equal d) diags.

(** [Diagnostics.Append]: each incoming diagnostic that is not yet present
    is added at the end. *)
Definition Append (diags incoming : Diagnostics) : Diagnostics :=
  fold_left (fun acc d => if Contains acc d then acc else (acc ++ [d])%list)
    incoming diags.

Definition NewErrorDiagnostic (summary detail : string) : Diagnostic :=
  {| severity := SeverityError; Summary := summary; Detail := detail |}.

Definition AddError (diags : Diagnostics) (summary detail : string)
  : Diagnostics :=
  Append diags [NewErrorDiagnostic summary detail].

Definition HasError (diags : Diagnostics) : bool :=
  existsb (fun d => match severity d with
                    | SeverityError => true
                    | SeverityWarning => false
                    end) diags.

End diag.

Module tfsdk.

(** A configuration, plan or prior state as an operation reads it:
    [Get(ctx, &data)] on a zero-valued [data] returns diagnostics and
    leaves the decoded model in [data]. *)
Record Data (M : Type) := { Get : diag.Diagnostics * M }.
Arguments Get {M} _.

(** The state of a response: [None] is the null state of a resource that
    is absent. *)
Definition State (M : Type) := option M.

(** [State.Set(ctx, &data)] with a model that matches the schema: the
    state holds the model and no diagnostic is returned. *)
Definition State_Set {M : Type} (data : M) : diag.Diagnostics * State M :=
  ([], Some data).

Definition RemoveResource {M : Type} : State M := None.

End tfsdk.

(** How a Go call ends: it returns, or it panics.  A panic carries the
    response object as the call had left it; the caller never receives it. *)
Inductive Exec (A : Type) :=
| Returned (a : A)
| Panicked (reason : string) (a : A).
Arguments Returned {A} a.
Arguments Panicked {A} reason a.

Definition nilDereference : string :=
  "runtime error: invalid memory address or nil pointer dereference".

(** ** Package provider (provider.go and the backend resource) *)

Module provider.

Import trinogatewayclient.

(** *** provider.go *)

Record TrinoGatewayProviderModel := {
  Endpoint : types.String;
  Login : types.String;
  Password : types.String
}.

Record ConfigureRequest := {
  Config : tfsdk.Data TrinoGatewayProviderModel
}.

(** [DataSourceData] and [ResourceData] are of type [any]; the only value
    [Configure] stores there is the client, [None] is the untyped [nil]. *)
Record ConfigureResponse := {
  ConfigureDiagnostics : diag.Diagnostics;
  DataSourceData : option trinoGatewayClientHttpImpl;
  ResourceData : option trinoGatewayClientHttpImpl
}.

Section Provider.

Variable http_DefaultClient : http.Client.

Definition Configure (req : ConfigureRequest) (resp : ConfigureResponse)
  : ConfigureResponse :=
  let '(diags, data) := tfsdk.Get (Config req) in
  let resp :=
    {| ConfigureDiagnostics := diag.Append (ConfigureDiagnostics resp) diags;
       DataSourceData := DataSourceData resp;
       ResourceData := ResourceData resp |} in
  if diag.HasError (ConfigureDiagnostics resp) then resp
  else if types.IsNull (Endpoint data) then
    {| ConfigureDiagnostics :=
         diag.AddError (ConfigureDiagnostics resp)
           "Endpoint for trino gateway client is not specify"
           "Cant configure trino gateway client: endpoint is not specified";
       DataSourceData := DataSourceData resp;
       ResourceData := ResourceData resp |}
  else
    (* var auth *trinogatewayclient.Auth; [inl] is the early return *)
    let auth : ConfigureResponse + option Auth :=
      if negb (types.IsNull (Login data)) then
        if types.IsNull (Password data) then
          inl {| ConfigureDiagnostics :=
                   diag.AddError (ConfigureDiagnostics resp)
                     "Cant configure trino gateway client auth"
                     "Cant configure trino gateway client auth: if login set, password should be set too";
                 DataSourceData := DataSourceData resp;
                 ResourceData := ResourceData resp |}
        else
          inr (Some {| trinogatewayclient.Login :=
                         types.ValueString (Login data);
                       trinogatewayclient.Password :=
                         types.ValueString (Password data) |})
      else inr None in
    match auth with
    | inl resp => resp
    | inr auth =>
        match NewTrinoGatewayClient http_DefaultClient
                (types.ValueString (Endpoint data)) auth with
        | inl e =>
            {| ConfigureDiagnostics :=
                 diag.AddError (ConfigureDiagnostics resp)
                   "Cant configure trino gateway client"
                   ("cant configure trino gateway client: " ++ e);
               DataSourceData := DataSourceData resp;
               ResourceData := ResourceData resp |}
        | inr client =>
            {| ConfigureDiagnostics := ConfigureDiagnostics resp;
               DataSourceData := Some client;
               ResourceData := Some client |}
        end
    end.

End Provider.

(** *** The backend resource *)

Record BackendResourceModel := {
  Id : types.String;
  Name : types.String;
  ProxyTo : types.String;
  Active : types.Bool;
  RoutingGroup : types.String;
  ExternalUrl : types.String
}.

(** [var data BackendResourceModel]: every attribute null. *)
Definition zeroBackendResourceModel : BackendResourceModel :=
  {| Id := types.StringNull; Name := types.StringNull;
     ProxyTo := types.StringNull; Active := types.BoolNull;
     RoutingGroup := types.StringNull; ExternalUrl := types.StringNull |}.

(** The request and response structs of the five operations hold a plan or
    a prior state, diagnostics and a state; one pair of records serves. *)
Record Request := {
  (** [req.Plan] of Create and Update, [req.State] of Read and Delete. *)
  Source : tfsdk.Data BackendResourceModel
}.

Record ImportStateRequest := { ID : string }.

Record Response := {
  Diagnostics : diag.Diagnostics;
  State : tfsdk.State BackendResourceModel
}.

Definition appendDiagnostics (resp : Response) (diags : diag.Diagnostics)
  : Response :=
  {| Diagnostics := diag.Append (Diagnostics resp) diags;
     State := State resp |}.

Definition addError (resp : Response) (summary detail : string) : Response :=
  {| Diagnostics := diag.AddError (Diagnostics resp) summary detail;
     State := State resp |}.

(** [resp.Diagnostics.Append(resp.State.Set(ctx, &data)...)]. *)
Definition setState (resp : Response) (data : BackendResourceModel)
  : Response :=
  let '(diags, state) := tfsdk.State_Set data in
  {| Diagnostics := diag.Append (Diagnostics resp) diags; State := state |}.

(** The calls an operation makes through the client interface. *)
Inductive ClientCall :=
| CallAddOrUpdateBackend (backend : Backend)
| CallDeleteBackend (name : string)
| CallGetAllBackends.

(** [backendDomainToTfModel]: the first statement reads through
    [domainmodel], so a nil pointer panics before [tfmodel] is touched
    ([None]). *)
Definition backendDomainToTfModel (domainmodel : option Backend)
  (tfmodel : BackendResourceModel) : option BackendResourceModel :=
  match domainmodel with
  | None => None
  | Some domainmodel =>
      Some {| Id := Id tfmodel;
              Active := types.BoolValue (trinogatewayclient.Active domainmodel);
              ProxyTo := types.StringValue (trinogatewayclient.ProxyTo domainmodel);
              Name := types.StringValue (trinogatewayclient.Name domainmodel);
              RoutingGroup :=
                types.StringValue (trinogatewayclient.RoutingGroup domainmodel);
              ExternalUrl :=
                types.StringValue (trinogatewayclient.ExternalUrl domainmodel) |}
  end.

Section BackendResource.

Context {C : Type} `{TrinoGatewayClient C}.

Record BackendResource := { client : C }.

(** The loop of Read and ImportState,
    [for _, backend := range backends { if backend.Name == name { foundBackend = backend } }],
    one iteration per entry.  Reading [backend.Name] through a nil entry
    panics; the loop has no [break], so it meets every entry.  A panic
    carries [foundBackend] as it stood. *)
Fixpoint rangeBackends (name : string) (backends : list (option Backend))
  (foundBackend : option Backend) : Exec (option Backend) :=
  match backends with
  | [] => Returned foundBackend
  | None :: _ => Panicked nilDereference foundBackend
  | Some backend :: backends =>
      rangeBackends name backends
        (if String.eqb (trinogatewayclient.Name backend) name
         then Some backend
         else foundBackend)
  end.

Definition Create (r : BackendResource) (req : Request) (resp : Response)
  : list ClientCall * Response :=
  let '(diags, data) := tfsdk.Get (Source req) in
  let resp := appendDiagnostics resp diags in
  if diag.HasError (Diagnostics resp) then ([], resp)
  else
    let backend :=
      {| trinogatewayclient.Name := types.ValueString (Name data);
         trinogatewayclient.ProxyTo := types.ValueString (ProxyTo data);
         trinogatewayclient.RoutingGroup :=
           types.ValueString (RoutingGroup data);
         trinogatewayclient.Active := types.ValueBool (Active data);
         trinogatewayclient.ExternalUrl := "" |} in
    let data :=
      if types.IsNull (ExternalUrl data)
         || types.IsUnknown (ExternalUrl data)
      then {| Id := Id data; Name := Name data; ProxyTo := ProxyTo data;
              Active := Active data; RoutingGroup := RoutingGroup data;
              ExternalUrl :=
                types.StringValue (types.ValueString (ProxyTo data)) |}
      else data in
    let backend :=
      {| trinogatewayclient.Name := trinogatewayclient.Name backend;
         trinogatewayclient.ProxyTo := trinogatewayclient.ProxyTo backend;
         trinogatewayclient.RoutingGroup :=
           trinogatewayclient.RoutingGroup backend;
         trinogatewayclient.Active := trinogatewayclient.Active backend;
         trinogatewayclient.ExternalUrl :=
           types.ValueString (ExternalUrl data) |} in
    match AddOrUpdateBackend (client r) backend with
    | Some e =>
        ([CallAddOrUpdateBackend backend],
         addError resp "Client Error"
           ("Unable to add backend, got error: " ++ e))
    | None =>
        let data :=
          {| Id := types.StringValue (types.ValueString (Name data));
             Name := Name data; ProxyTo := ProxyTo data;
             Active := Active data; RoutingGroup := RoutingGroup data;
             ExternalUrl := ExternalUrl data |} in
        ([CallAddOrUpdateBackend backend], setState resp data)
    end.

Definition Read (r : BackendResource) (req : Request) (resp : Response)
  : list ClientCall * Exec Response :=
  let '(diags, data) := tfsdk.Get (Source req) in
  let resp := appendDiagnostics resp diags in
  if diag.HasError (Diagnostics resp) then ([], Returned resp)
  else
    match GetAllBackends (client r) with
    | inl e =>
        ([CallGetAllBackends],
         Returned (addError resp "Client Error"
                     ("Unable to list backends, got error: " ++ e)))
    | inr backends =>
        match rangeBackends (types.ValueString (Name data)) backends None with
        | Panicked reason _ => ([CallGetAllBackends], Panicked reason resp)
        | Returned foundBackend =>
            match foundBackend with
            | None =>
                ([CallGetAllBackends],
                 Returned {| Diagnostics := Diagnostics resp;
                             State := tfsdk.RemoveResource |})
            | Some _ =>
                match backendDomainToTfModel foundBackend data with
                | None => ([CallGetAllBackends], Panicked nilDereference resp)
                | Some data =>
                    ([CallGetAllBackends], Returned (setState resp data))
                end
            end
        end
    end.

Definition Update (r : BackendResource) (req : Request) (resp : Response)
  : list ClientCall * Response :=
  let '(diags, data) := tfsdk.Get (Source req) in
  let resp := appendDiagnostics resp diags in
  if diag.HasError (Diagnostics resp) then ([], resp)
  else
    let backend :=
      {| trinogatewayclient.Name := types.ValueString (Name data);
         trinogatewayclient.ProxyTo := types.ValueString (ProxyTo data);
         trinogatewayclient.RoutingGroup :=
           types.ValueString (RoutingGroup data);
         trinogatewayclient.Active := types.ValueBool (Active data);
         trinogatewayclient.ExternalUrl := "" |} in
    let data :=
      if types.IsNull (ExternalUrl data)
         || types.IsUnknown (ExternalUrl data)
      then {| Id := Id data; Name := Name data; ProxyTo := ProxyTo data;
              Active := Active data; RoutingGroup := RoutingGroup data;
              ExternalUrl :=
                types.StringValue (types.ValueString (ProxyTo data)) |}
      else data in
    let backend :=
      {| trinogatewayclient.Name := trinogatewayclient.Name backend;
         trinogatewayclient.ProxyTo := trinogatewayclient.ProxyTo backend;
         trinogatewayclient.RoutingGroup :=
           trinogatewayclient.RoutingGroup backend;
         trinogatewayclient.Active := trinogatewayclient.Active backend;
         trinogatewayclient.ExternalUrl :=
           types.ValueString (ExternalUrl data) |} in
    match AddOrUpdateBackend (client r) backend with
    | Some e =>
        ([CallAddOrUpdateBackend backend],
         addError resp "Client Error"
           ("Unable to update backend, got error: " ++ e))
    | None => ([CallAddOrUpdateBackend backend], setState resp data)
    end.

Definition Delete (r : BackendResource) (req : Request) (resp : Response)
  : list ClientCall * Response :=
  let '(diags, data) := tfsdk.Get (Source req) in
  let resp := appendDiagnostics resp diags in
  if diag.HasError (Diagnostics resp) then ([], resp)
  else
    match DeleteBackend (client r) (types.ValueString (Name data)) with
    | Some e =>
        ([CallDeleteBackend (types.ValueString (Name data))],
         addError resp "Client Error"
           ("Unable to delete backend, got error: " ++ e))
    | None => ([CallDeleteBackend (types.ValueString (Name data))], resp)
    end.

Definition ImportState (r : BackendResource) (req : ImportStateRequest)
  (resp : Response) : list ClientCall * Exec Response :=
  let backendName := ID req in
  match GetAllBackends (client r) with
  | inl e =>
      ([CallGetAllBackends],
       Returned (addError resp "Client Error"
                   ("Unable to list backends, got error: " ++ e)))
  | inr backends =>
      match rangeBackends backendName backends None with
      | Panicked reason _ => ([CallGetAllBackends], Panicked reason resp)
      | Returned foundBackend =>
          let resp :=
            match foundBackend with
            | None => addError resp "Backend not found" "Backend not found"
            | Some _ => resp
            end in
          (* no return after the error: the code goes on *)
          let data := zeroBackendResourceModel in
          match backendDomainToTfModel foundBackend data with
          | None => ([CallGetAllBackends], Panicked nilDereference resp)
          | Some data =>
              (* resp.State.Set(ctx, &data): its diagnostics are dropped *)
              ([CallGetAllBackends],
               Returned {| Diagnostics := Diagnostics resp;
                           State := snd (tfsdk.State_Set data) |})
          end
      end
  end.

End BackendResource.

End provider.

(** ** The resource's own Configure

    [req.ProviderData] is of type [any].  The method tells three kinds of
    value apart: the untyped nil, a value that implements the client
    interface, and any other value, of which only the type name that [%T]
    prints is used.  The receiver's [client] field is nil until the method
    sets it; the response holds diagnostics only. *)

Inductive ProviderData (C : Type) :=
| ProviderDataNil
| ProviderDataClient (client : C)
| ProviderDataOther (typeName : string).
Arguments ProviderDataNil {C}.
Arguments ProviderDataClient {C} client.
Arguments ProviderDataOther {C} typeName.

(** [(r *BackendResource) Configure]: the receiver's [client] field before
    the call and the diagnostics of the response go in, both come out. *)
Definition BackendResource_Configure {C : Type} (client : option C)
  (providerData : ProviderData C) (diagnostics : diag.Diagnostics)
  : option C * diag.Diagnostics :=
  match providerData with
  | ProviderDataNil => (client, diagnostics)
  | ProviderDataOther typeName =>
      (client,
       diag.AddError diagnostics "Unexpected Resource Configure Type"
         ("Expected trinogatewayclient.TrinoGatewayClient, got: " ++ typeName
            ++ ". Please report this issue to the provider developers."))
  | ProviderDataClient c => (Some c, diagnostics)
  end.

(** The framework hands the provider's [ResourceData] to each resource as
    its [ProviderData]. *)
Definition handedOver
  (resourceData : option trinogatewayclient.trinoGatewayClientHttpImpl)
  : ProviderData trinogatewayclient.trinoGatewayClientHttpImpl :=
  match resourceData with
  | Some client => ProviderDataClient client
  | None => ProviderDataNil
  end.

(** ** Stand-ins for the collaborators

    Concrete values for what the operations take as parameters: the library
    functions, an HTTP server and a client behind the interface.  They serve
    to run the operations on examples. *)

Module standin.

Import trinogatewayclient.

Definition quote : string := String (ascii_of_nat 34) EmptyString.

Definition jsonBool (b : bool) : string := if b then "true" else "false".

(** The JSON object of a backend whose strings need no escaping, keys in the
    order of the struct tags. *)
Definition json_Marshal (backend : Backend) : string + string :=
  inr ("{" ++ quote ++ "name" ++ quote ++ ":" ++ quote ++ Name backend ++ quote
       ++ "," ++ quote ++ "proxyTo" ++ quote ++ ":"
       ++ quote ++ ProxyTo backend ++ quote
       ++ "," ++ quote ++ "routingGroup" ++ quote ++ ":"
       ++ quote ++ RoutingGroup backend ++ quote
       ++ "," ++ quote ++ "active" ++ quote ++ ":" ++ jsonBool (Active backend)
       ++ "," ++ quote ++ "externalUrl" ++ quote ++ ":"
       ++ quote ++ ExternalUrl backend ++ quote ++ "}").

(** What [json.Unmarshal] into a [[]*Backend] gives on the texts used
    below.  The library decodes the empty array to the empty slice, the JSON
    [null] to the nil slice and a [null] element of an array to a nil
    pointer, each without an error; it rejects the empty text and a text
    whose first byte can begin no JSON value, with the messages given here.
    Other texts are not modelled: the stand-in rejects them. *)
Definition json_Unmarshal (body : string)
  : string + list (option Backend) :=
  if String.eqb body "[]" then inr []
  else if String.eqb body "null" then inr []
  else if String.eqb body "[null]" then inr [None]
  else
    match body with
    | EmptyString => inl "unexpected end of JSON input"
    | String c _ =>
        inl ("invalid character '" ++ String c EmptyString
               ++ "' looking for beginning of value")
    end.

(** Every URL parses. *)
Definition url_Parse (url : string) : option string := None.

(** A server that gives the same answer to every request. *)
Definition server (answer : string + http.Response) : http.Client :=
  fun _ => answer.

Fixpoint replicate (n : nat) (c : ascii) : string :=
  match n with
  | O => EmptyString
  | S n => String c (replicate n c)
  end.

(** A client behind the interface that gives scripted results. *)
Record scripted := {
  upsertResult : option string;
  deleteResult : option string;
  listResult : string + list (option Backend)
}.

#[export] Instance scripted_client : TrinoGatewayClient scripted := {
  AddOrUpdateBackend c _ := upsertResult c;
  DeleteBackend c _ := deleteResult c;
  GetAllBackends c := listResult c
}.

End standin.

(** ** The scan as the specification words it *)

(** "Last match in iteration order wins": the first entry named [name]
    met when the list is read from its end. *)
Definition lastMatching (name : string)
  (backends : list trinogatewayclient.Backend)
  : option trinogatewayclient.Backend :=
  find (fun backend => String.eqb (trinogatewayclient.Name backend) name)
    (rev backends).

(** ** Examples

    The values the operations are run on below: the endpoint and the
    resource of the repository's example configuration. *)

Import trinogatewayclient.

#[local] Existing Instance standin.scripted_client.

(** A gateway at the endpoint of the repository's example configuration
    that answers every request with [answer]. *)
Definition exampleClient (answer : http.Response)
  : trinoGatewayClientHttpImpl :=
  {| httpclient := standin.server (inr answer);
     auth := None;
     endpoint := "http://127.0.0.1:18080/" |}.

Definition exampleBackend : Backend :=
  {| Name := "trino-1"; ProxyTo := "http://localhost:8085";
     RoutingGroup := "some"; Active := false;
     ExternalUrl := "http://localhost:8085" |}.

Definition listRequest : http.Request :=
  {| http.Method := "GET";
     http.URL := "http://127.0.0.1:18080/entity/GATEWAY_BACKEND";
     http.ReqBody := None;
     http.BasicAuth := None |}.

Definition trino (name proxyTo routingGroup : string) (active : bool)
  (externalUrl : string) : Backend :=
  {| Name := name; ProxyTo := proxyTo; RoutingGroup := routingGroup;
     Active := active; ExternalUrl := externalUrl |}.

(** A resource whose client lists [backends], every entry a record, and
    accepts every change. *)
Definition resourceOver (backends : list Backend)
  : @provider.BackendResource standin.scripted :=
  {| provider.client :=
       {| standin.upsertResult := None;
          standin.deleteResult := None;
          standin.listResult := inr (map Some backends) |} |}.

(** A resource whose client returns the slice [entries], nil entries
    included. *)
Definition resourceListing (entries : list (option Backend))
  : @provider.BackendResource standin.scripted :=
  {| provider.client :=
       {| standin.upsertResult := None;
          standin.deleteResult := None;
          standin.listResult := inr entries |} |}.

Definition emptyResponse : provider.Response :=
  {| provider.Diagnostics := []; provider.State := None |}.

(** The plan of the example configuration without [external_url]. *)
Definition examplePlan : provider.BackendResourceModel :=
  {| provider.Id := types.StringUnknown;
     provider.Name := types.StringValue "trino-1";
     provider.ProxyTo := types.StringValue "http://localhost:8085";
     provider.Active := types.BoolValue false;
     provider.RoutingGroup := types.StringValue "some";
     provider.ExternalUrl := types.StringUnknown |}.

Definition reading (data : provider.BackendResourceModel) : provider.Request :=
  {| provider.Source := {| tfsdk.Get := ([], data) |} |}.

Definition trackedTrino1 : provider.BackendResourceModel :=
  {| provider.Id := types.StringValue "trino-1";
     provider.Name := types.StringValue "trino-1";
     provider.ProxyTo := types.StringValue "http://localhost:8085";
     provider.Active := types.BoolValue false;
     provider.RoutingGroup := types.StringValue "some";
     provider.ExternalUrl := types.StringValue "http://localhost:8085" |}.

(** A parser that rejects every URL, as [url.Parse] does a malformed one. *)
Definition rejectingParse (url : string) : option string :=
  Some ("parse " ++ url ++ ": invalid URL escape").

(** A marshaller that fails. *)
Definition failingMarshal (backend : Backend) : string + string :=
  inl "json: unsupported value".

(** A decoder that yields a fixed list for every text. *)
Definition decodingTo (backends : list (option Backend)) (body : string)
  : string + list (option Backend) :=
  inr backends.

(** The example client with the credentials of the example configuration. *)
Definition exampleClientWithAuth (answer : string + http.Response)
  : trinoGatewayClientHttpImpl :=
  {| httpclient := standin.server answer;
     auth := Some {| Login := "admin"; Password := "admin" |};
     endpoint := "http://127.0.0.1:18080" |}.

(** A resource whose client refuses every call with [e]. *)
Definition resourceRefusing (e : string)
  : @provider.BackendResource standin.scripted :=
  {| provider.client :=
       {| standin.upsertResult := Some e;
          standin.deleteResult := Some e;
          standin.listResult := inl e |} |}.

(** A prior state or plan that cannot be decoded. *)
Definition unreadable : provider.Request :=
  {| provider.Source :=
       {| tfsdk.Get :=
            ([diag.NewErrorDiagnostic "Value Conversion Error"
                "An unexpected error was encountered trying to build a value."],
             provider.zeroBackendResourceModel) |} |}.

Definition emptyConfigureResponse : provider.ConfigureResponse :=
  {| provider.ConfigureDiagnostics := [];
     provider.DataSourceData := None;
     provider.ResourceData := None |}.

Definition configuring (data : provider.TrinoGatewayProviderModel)
  : provider.ConfigureRequest :=
  {| provider.Config := {| tfsdk.Get := ([], data) |} |}.

(** The delete request of [exampleClientWithAuth] for "trino-1". *)
Definition authorizedDelete : http.Request :=
  {| http.Method := "POST";
     http.URL := "http://127.0.0.1:18080/gateway/backend/modify/delete";
     http.ReqBody := Some "trino-1";
     http.BasicAuth := Some ("admin", "admin") |}.

(** * Properties *)

(** ** Byte strings *)

Lemma append_length (a b : string) :
  String.length (a ++ b) = String.length a + String.length b.
Proof.
  induction a as [|c a IH]; simpl; [reflexivity | now rewrite IH].
Qed.

Lemma append_assoc (a b c : string) : (a ++ b) ++ c = a ++ b ++ c.
Proof.
  induction a as [|x a IH]; simpl; [reflexivity | now rewrite IH].
Qed.

Lemma append_empty_r (a : string) : a ++ "" = a.
Proof.
  induction a as [|x a IH]; simpl; [reflexivity | now rewrite IH].
Qed.

Lemma substring_prefix_length (n : nat) (s : string) :
  String.length (substring 0 n s) = Nat.min n (String.length s).
Proof.
  revert s; induction n as [|n IH]; intros [|c s]; simpl; auto.
Qed.

Lemma substring_append_left (a b : string) :
  substring 0 (String.length a) (a ++ b) = a.
Proof.
  induction a as [|c a IH]; simpl.
  - now destruct b.
  - now rewrite IH.
Qed.

Lemma substring_append_right (a b : string) :
  substring (String.length a) (String.length b) (a ++ b) = b.
Proof.
  induction a as [|c a IH]; simpl; [|exact IH].
  induction b as [|c b IH]; simpl; [reflexivity | now rewrite IH].
Qed.

(** A prefix slice splits the string: [b = b[:n] ++ b[n:]]. *)
Lemma substring_prefix_split (n : nat) (s : string) :
  exists rest, s = substring 0 n s ++ rest.
Proof.
  revert s; induction n as [|n IH]; intros [|c s]; simpl.
  - now exists "".
  - now exists (String c s).
  - now exists "".
  - destruct (IH s) as [rest E]. exists rest. now rewrite <- E.
Qed.

Lemma Contains_middle (pre sub post : string) :
  strings.Contains (pre ++ sub ++ post) sub.
Proof. now exists pre, post. Qed.

Lemma Contains_suffix (pre sub : string) : strings.Contains (pre ++ sub) sub.
Proof. exists pre, "". now rewrite append_empty_r. Qed.

(** The excerpt of a response body that goes into an error message. *)
Lemma excerpt_bounded (body : string) :
  (String.length
     (slice_to body (Nat.min (String.length body) maxResponseBodyLogSize))
   <= maxResponseBodyLogSize)%nat.
Proof.
  unfold slice_to. rewrite substring_prefix_length. lia.
Qed.

Lemma excerpt_is_prefix (body : string) :
  exists rest,
    body = slice_to body (Nat.min (String.length body) maxResponseBodyLogSize)
             ++ rest.
Proof. apply substring_prefix_split. Qed.

Lemma excerpt_whole (body : string) :
  (String.length body <= maxResponseBodyLogSize)%nat ->
  slice_to body (Nat.min (String.length body) maxResponseBodyLogSize) = body.
Proof.
  intros Hle. rewrite Nat.min_l by exact Hle. unfold slice_to.
  rewrite <- (append_empty_r body) at 2.
  rewrite substring_append_left. reflexivity.
Qed.

Lemma badResponse_Contains_code (code : Z) (body : string) :
  strings.Contains (badResponse code body) (fmt.d code).
Proof. unfold badResponse. apply Contains_middle. Qed.

Lemma badResponse_Contains_excerpt (code : Z) (body : string) :
  strings.Contains (badResponse code body)
    (slice_to body (Nat.min (String.length body) maxResponseBodyLogSize)).
Proof.
  unfold badResponse.
  rewrite <- (append_assoc "bad http response code: ").
  rewrite <- append_assoc.
  apply Contains_suffix.
Qed.

(** ** [strings.TrimSuffix] on an endpoint *)

Lemma TrimSuffix_appended (s suffix : string) :
  strings.TrimSuffix (s ++ suffix) suffix = s.
Proof.
  unfold strings.TrimSuffix, strings.HasSuffix.
  rewrite append_length.
  replace (String.length s + String.length suffix - String.length suffix)
    with (String.length s) by lia.
  rewrite substring_append_right, String.eqb_refl, substring_append_left.
  replace (String.length suffix <=? String.length s + String.length suffix)%nat
    with true by (symmetry; apply Nat.leb_le; lia).
  reflexivity.
Qed.

Lemma TrimSuffix_without (s suffix : string) :
  strings.HasSuffix s suffix = false -> strings.TrimSuffix s suffix = s.
Proof. unfold strings.TrimSuffix. now intros ->. Qed.

Lemma getFullUrl_slash (httpclient : http.Client) (auth : option Auth)
  (e subpath : string) :
  getFullUrl {| httpclient := httpclient; auth := auth; endpoint := e ++ "/" |}
    subpath = e ++ subpath.
Proof. unfold getFullUrl; simpl endpoint. now rewrite TrimSuffix_appended. Qed.

Lemma getFullUrl_plain (httpclient : http.Client) (auth : option Auth)
  (e subpath : string) :
  strings.HasSuffix e "/" = false ->
  getFullUrl {| httpclient := httpclient; auth := auth; endpoint := e |}
    subpath = e ++ subpath.
Proof.
  intros Hno. unfold getFullUrl; simpl endpoint.
  now rewrite TrimSuffix_without.
Qed.

(** ** The gateway client *)

Section ClientProperties.

Variable json_Marshal : Backend -> string + string.
Variable json_Unmarshal : string -> string + list (option Backend).
Variable url_Parse : string -> option string.

(** C9.  For an endpoint [e] that does not end in "/", the client
    configured with [e] and the client configured with [e ++ "/"] build the
    same URL for every sub-path, namely [e ++ subpath]: exactly the one
    added "/" is stripped.  Hence the three operations send the same
    requests and give the same results under both configurations. *)
Theorem C9_trailing_slash_equivalent
  (httpclient : http.Client) (auth : option Auth) (e : string) :
  strings.HasSuffix e "/" = false ->
  let tg := {| httpclient := httpclient; auth := auth; endpoint := e |} in
  let tg' :=
    {| httpclient := httpclient; auth := auth; endpoint := e ++ "/" |} in
  (forall subpath,
      getFullUrl tg' subpath = getFullUrl tg subpath
      /\ getFullUrl tg' subpath = e ++ subpath)
  /\ (forall backend,
      HttpImpl_AddOrUpdateBackend json_Marshal url_Parse tg' backend
      = HttpImpl_AddOrUpdateBackend json_Marshal url_Parse tg backend)
  /\ (forall name,
      HttpImpl_DeleteBackend url_Parse tg' name
      = HttpImpl_DeleteBackend url_Parse tg name)
  /\ HttpImpl_GetAllBackends json_Unmarshal url_Parse tg'
     = HttpImpl_GetAllBackends json_Unmarshal url_Parse tg.
Proof.
  intros Hno tg tg'.
  assert (Hurl : forall subpath, getFullUrl tg' subpath = getFullUrl tg subpath).
  { intros subpath. unfold tg, tg'.
    now rewrite getFullUrl_slash, getFullUrl_plain. }
  repeat split.
  - apply Hurl.
  - apply getFullUrl_slash.
  - intros backend. unfold HttpImpl_AddOrUpdateBackend.
    now rewrite Hurl.
  - intros name. unfold HttpImpl_DeleteBackend. now rewrite Hurl.
  - unfold HttpImpl_GetAllBackends. now rewrite Hurl.
Qed.

(** The requests an operation sends depend on the request it could build
    only, not on the answer. *)
Lemma AddOrUpdateBackend_sent (tg : trinoGatewayClientHttpImpl)
  (backend : Backend) :
  fst (HttpImpl_AddOrUpdateBackend json_Marshal url_Parse tg backend)
  = match json_Marshal backend with
    | inl _ => []
    | inr requestBody =>
        match http_NewRequest url_Parse http.MethodPost
                (getFullUrl tg "/entity?entityType=GATEWAY_BACKEND")
                (Some requestBody) with
        | inl _ => []
        | inr request => [addAuth tg request]
        end
    end.
Proof.
  unfold HttpImpl_AddOrUpdateBackend.
  destruct (json_Marshal backend); [reflexivity|].
  destruct (http_NewRequest _ _ _ _); [reflexivity|].
  cbv zeta. destruct (httpclient tg _); [reflexivity|].
  now destruct (negb _).
Qed.

Lemma DeleteBackend_sent (tg : trinoGatewayClientHttpImpl) (name : string) :
  fst (HttpImpl_DeleteBackend url_Parse tg name)
  = match http_NewRequest url_Parse http.MethodPost
            (getFullUrl tg "/gateway/backend/modify/delete") (Some name) with
    | inl _ => []
    | inr request => [addAuth tg request]
    end.
Proof.
  unfold HttpImpl_DeleteBackend.
  destruct (http_NewRequest _ _ _ _); [reflexivity|].
  cbv zeta. destruct (httpclient tg _); [reflexivity|].
  now destruct (negb _).
Qed.

Lemma GetAllBackends_sent (tg : trinoGatewayClientHttpImpl) :
  fst (HttpImpl_GetAllBackends json_Unmarshal url_Parse tg)
  = match http_NewRequest url_Parse http.MethodGet
            (getFullUrl tg "/entity/GATEWAY_BACKEND") None with
    | inl _ => []
    | inr request => [addAuth tg request]
    end.
Proof.
  unfold HttpImpl_GetAllBackends.
  destruct (http_NewRequest _ _ _ _); [reflexivity|].
  cbv zeta. destruct (httpclient tg _); [reflexivity|].
  destruct (http.err _); [reflexivity|].
  destruct (negb _); [reflexivity|].
  now destruct (json_Unmarshal _).
Qed.

(** From "the operation sent [request]" to the branch of the operation that
    built it; the server's answer is then put in place. *)
Ltac sent_request Hsent Hanswer :=
  repeat match type of Hsent with
         | context [match ?x with _ => _ end] =>
             destruct x eqn:?; try discriminate Hsent
         end;
  injection Hsent as Hsent; cbv zeta; rewrite Hsent, Hanswer; simpl.

Lemma status_not_200 (code : Z) :
  code <> 200%Z -> negb (code =? 200)%Z = true.
Proof. intros Hne. apply negb_true_iff, Z.eqb_neq, Hne. Qed.

(** C3 (amended).  A response with a status code other than 200 makes
    AddOrUpdateBackend and DeleteBackend return the error
    "bad http response code: <code>, body: <excerpt>", where the excerpt is
    the first [min (len body) 1024] bytes of what [io.ReadAll] delivered of
    the response body: a prefix of at most 1024 bytes, the whole body when
    it is that short.  The message contains the decimal status code and the
    excerpt.  GetAllBackends returns the same error when the body was read
    without error; when reading the body failed it returns
    "cant read response body" instead, which checks come before the status
    code. *)
Theorem C3_non200_is_error
  (tg : trinoGatewayClientHttpImpl) (request : http.Request)
  (code : Z) (body : string) (readErr : option string) :
  code <> 200%Z ->
  let excerpt :=
    slice_to body (Nat.min (String.length body) maxResponseBodyLogSize) in
  let message :=
    "bad http response code: " ++ fmt.d code ++ ", body: " ++ excerpt in
  let response :=
    {| http.StatusCode := code;
       http.Body := {| http.data := body; http.err := readErr |} |} in
  ((String.length excerpt <= 1024)%nat
   /\ (exists rest, body = excerpt ++ rest)
   /\ ((String.length body <= 1024)%nat -> excerpt = body)
   /\ strings.Contains message (fmt.d code)
   /\ strings.Contains message excerpt)
  /\ (forall backend,
        fst (HttpImpl_AddOrUpdateBackend json_Marshal url_Parse tg backend)
        = [request] ->
        httpclient tg request = inr response ->
        snd (HttpImpl_AddOrUpdateBackend json_Marshal url_Parse tg backend)
        = Some message)
  /\ (forall name,
        fst (HttpImpl_DeleteBackend url_Parse tg name) = [request] ->
        httpclient tg request = inr response ->
        snd (HttpImpl_DeleteBackend url_Parse tg name) = Some message)
  /\ (fst (HttpImpl_GetAllBackends json_Unmarshal url_Parse tg) = [request] ->
      httpclient tg request = inr (http.complete code body) ->
      snd (HttpImpl_GetAllBackends json_Unmarshal url_Parse tg)
      = inl message)
  /\ (forall failure,
        fst (HttpImpl_GetAllBackends json_Unmarshal url_Parse tg)
        = [request] ->
        httpclient tg request
        = inr {| http.StatusCode := code;
                 http.Body :=
                   {| http.data := body; http.err := Some failure |} |} ->
        snd (HttpImpl_GetAllBackends json_Unmarshal url_Parse tg)
        = inl "cant read response body").
Proof.
  intros Hcode excerpt message response.
  pose proof (status_not_200 code Hcode) as Hneg.
  split; [|split; [|split; [|split]]].
  - split; [apply excerpt_bounded|].
    split; [apply excerpt_is_prefix|].
    split; [apply excerpt_whole|].
    split; [apply badResponse_Contains_code | apply badResponse_Contains_excerpt].
  - intros backend Hsent Hanswer.
    rewrite AddOrUpdateBackend_sent in Hsent.
    unfold HttpImpl_AddOrUpdateBackend.
    sent_request Hsent Hanswer. now rewrite Hneg.
  - intros name Hsent Hanswer.
    rewrite DeleteBackend_sent in Hsent.
    unfold HttpImpl_DeleteBackend.
    sent_request Hsent Hanswer. now rewrite Hneg.
  - intros Hsent Hanswer.
    rewrite GetAllBackends_sent in Hsent.
    unfold HttpImpl_GetAllBackends.
    sent_request Hsent Hanswer. now rewrite Hneg.
  - intros failure Hsent Hanswer.
    rewrite GetAllBackends_sent in Hsent.
    unfold HttpImpl_GetAllBackends.
    sent_request Hsent Hanswer. reflexivity.
Qed.

(** A list response whose body cannot be read to its end is reported as
    such, whatever its status code. *)
Lemma GetAllBackends_read_failure
  (tg : trinoGatewayClientHttpImpl) (request : http.Request)
  (code : Z) (body readErr : string) :
  fst (HttpImpl_GetAllBackends json_Unmarshal url_Parse tg) = [request] ->
  httpclient tg request
  = inr {| http.StatusCode := code;
           http.Body := {| http.data := body; http.err := Some readErr |} |} ->
  snd (HttpImpl_GetAllBackends json_Unmarshal url_Parse tg)
  = inl "cant read response body".
Proof.
  intros Hsent Hanswer.
  rewrite GetAllBackends_sent in Hsent.
  unfold HttpImpl_GetAllBackends.
  sent_request Hsent Hanswer. reflexivity.
Qed.

(** C6 (amended).  For a 200 list response read to its end, the outcome of
    GetAllBackends is the decoder's.  A body that [json.Unmarshal] rejects
    with a parse error gives the error
    "cant unmarshal response: <parse error>, body: <excerpt>": an error
    result (no list is returned), whose message contains the parse error and
    the excerpt, a prefix of the body of at most 1024 bytes.  A body that
    [json.Unmarshal] accepts gives the decoded slice and no error, whatever
    the text was (the library accepts [null] and [[null]], which are no
    arrays of entity objects). *)
Theorem C6_malformed_list_is_decoding_error
  (tg : trinoGatewayClientHttpImpl) (request : http.Request)
  (body : string) :
  fst (HttpImpl_GetAllBackends json_Unmarshal url_Parse tg) = [request] ->
  httpclient tg request = inr (http.complete 200 body) ->
  let excerpt :=
    slice_to body (Nat.min (String.length body) maxResponseBodyLogSize) in
  (forall parseError,
      json_Unmarshal body = inl parseError ->
      let message :=
        "cant unmarshal response: " ++ parseError ++ ", body: " ++ excerpt in
      snd (HttpImpl_GetAllBackends json_Unmarshal url_Parse tg) = inl message
      /\ strings.Contains message parseError
      /\ strings.Contains message excerpt)
  /\ (forall backends,
        json_Unmarshal body = inr backends ->
        snd (HttpImpl_GetAllBackends json_Unmarshal url_Parse tg)
        = inr backends)
  /\ (String.length excerpt <= 1024)%nat
  /\ (exists rest, body = excerpt ++ rest).
Proof.
  intros Hsent Hanswer excerpt.
  assert (Hrun : snd (HttpImpl_GetAllBackends json_Unmarshal url_Parse tg)
                 = match json_Unmarshal body with
                   | inl e =>
                       inl ("cant unmarshal response: " ++ e ++ ", body: "
                              ++ excerpt)
                   | inr backends => inr backends
                   end).
  { rewrite GetAllBackends_sent in Hsent.
    unfold HttpImpl_GetAllBackends.
    sent_request Hsent Hanswer. now destruct (json_Unmarshal body). }
  split; [|split; [|split]].
  - intros parseError Hdecode message. split; [|split].
    + now rewrite Hrun, Hdecode.
    + apply Contains_middle.
    + unfold message.
      rewrite <- (append_assoc "cant unmarshal response: ").
      rewrite <- append_assoc. apply Contains_suffix.
  - intros backends Hdecode. now rewrite Hrun, Hdecode.
  - apply excerpt_bounded.
  - apply excerpt_is_prefix.
Qed.

(** C7.  With a JSON decoder that decodes the text [[]] to the empty slice,
    a 200 list response whose body is [[]] makes GetAllBackends return the
    empty list of backends, which is a list result and not an error. *)
Theorem C7_empty_array_is_empty_list
  (tg : trinoGatewayClientHttpImpl) (request : http.Request) :
  json_Unmarshal "[]" = inr [] ->
  fst (HttpImpl_GetAllBackends json_Unmarshal url_Parse tg) = [request] ->
  httpclient tg request = inr (http.complete 200 "[]") ->
  snd (HttpImpl_GetAllBackends json_Unmarshal url_Parse tg) = inr []
  /\ (forall e,
        snd (HttpImpl_GetAllBackends json_Unmarshal url_Parse tg) <> inl e).
Proof.
  intros Hdecode Hsent Hanswer.
  assert (Hres : snd (HttpImpl_GetAllBackends json_Unmarshal url_Parse tg)
                 = inr []).
  { rewrite GetAllBackends_sent in Hsent.
    unfold HttpImpl_GetAllBackends.
    sent_request Hsent Hanswer. now rewrite Hdecode. }
  split; [exact Hres|].
  intros e. rewrite Hres. discriminate.
Qed.

(** C8.  Whenever the delete URL of the configured endpoint parses,
    DeleteBackend sends exactly one request, for every name: a POST to the
    endpoint's URL for the path /gateway/backend/modify/delete, whose body
    is the name itself, byte for byte, with the Basic credentials of the
    client if it has any.  If the answer has status 404, the result is an
    error whose message contains "404". *)
Theorem C8_delete_posts_raw_name
  (tg : trinoGatewayClientHttpImpl) (name : string) :
  url_Parse (getFullUrl tg "/gateway/backend/modify/delete") = None ->
  let request :=
    {| http.Method := "POST";
       http.URL :=
         strings.TrimSuffix (endpoint tg) "/"
           ++ "/gateway/backend/modify/delete";
       http.ReqBody := Some name;
       http.BasicAuth :=
         match auth tg with
         | Some a => Some (Login a, Password a)
         | None => None
         end |} in
  fst (HttpImpl_DeleteBackend url_Parse tg name) = [request]
  /\ (forall body readErr,
        httpclient tg request
        = inr {| http.StatusCode := 404;
                 http.Body := {| http.data := body; http.err := readErr |} |} ->
        let message :=
          "bad http response code: 404, body: "
            ++ slice_to body
                 (Nat.min (String.length body) maxResponseBodyLogSize) in
        snd (HttpImpl_DeleteBackend url_Parse tg name) = Some message
        /\ strings.Contains message "404").
Proof.
  intros Hurl request.
  assert (Hsent : fst (HttpImpl_DeleteBackend url_Parse tg name) = [request]).
  { rewrite DeleteBackend_sent. unfold http_NewRequest. rewrite Hurl.
    unfold addAuth, request, getFullUrl. now destruct (auth tg). }
  split; [exact Hsent|].
  intros body readErr Hanswer message. split.
  - rewrite DeleteBackend_sent in Hsent.
    unfold HttpImpl_DeleteBackend.
    sent_request Hsent Hanswer. reflexivity.
  - apply (badResponse_Contains_code 404 body).
Qed.

End ClientProperties.

(** *** The client on examples *)

(** A 500 response with a body of 2000 bytes: the three operations report
    the status code and the first 1024 bytes. *)
Lemma C3_non200_is_error_witness :
  (500 <> 200)%Z
  /\ (let tg := exampleClient (http.complete 500 (standin.replicate 2000 "x")) in
      let message :=
        "bad http response code: 500, body: " ++ standin.replicate 1024 "x" in
      snd (HttpImpl_AddOrUpdateBackend standin.json_Marshal standin.url_Parse
             tg exampleBackend) = Some message
      /\ snd (HttpImpl_DeleteBackend standin.url_Parse tg "trino-1")
         = Some message
      /\ snd (HttpImpl_GetAllBackends standin.json_Unmarshal standin.url_Parse
                tg) = inl message).
Proof.
  assert (Hcode : (500 <> 200)%Z) by discriminate.
  split; [exact Hcode|].
  intros tg message.
  split; [|split].
  - pose proof (C3_non200_is_error standin.json_Marshal standin.json_Unmarshal
                  standin.url_Parse tg
                  (addAuth tg
                     {| http.Method := "POST";
                        http.URL :=
                          "http://127.0.0.1:18080/entity?entityType=GATEWAY_BACKEND";
                        http.ReqBody :=
                          match standin.json_Marshal exampleBackend with
                          | inr b => Some b
                          | inl _ => None
                          end;
                        http.BasicAuth := None |})
                  500 (standin.replicate 2000 "x") None Hcode) as Hthm.
    exact (proj1 (proj2 Hthm) exampleBackend eq_refl eq_refl).
  - pose proof (C3_non200_is_error standin.json_Marshal standin.json_Unmarshal
                  standin.url_Parse tg
                  {| http.Method := "POST";
                     http.URL :=
                       "http://127.0.0.1:18080/gateway/backend/modify/delete";
                     http.ReqBody := Some "trino-1";
                     http.BasicAuth := None |}
                  500 (standin.replicate 2000 "x") None Hcode) as Hthm.
    exact (proj1 (proj2 (proj2 Hthm)) "trino-1" eq_refl eq_refl).
  - pose proof (C3_non200_is_error standin.json_Marshal standin.json_Unmarshal
                  standin.url_Parse tg
                  {| http.Method := "GET";
                     http.URL := "http://127.0.0.1:18080/entity/GATEWAY_BACKEND";
                     http.ReqBody := None;
                     http.BasicAuth := None |}
                  500 (standin.replicate 2000 "x") None Hcode) as Hthm.
    exact (proj1 (proj2 (proj2 (proj2 Hthm))) eq_refl eq_refl).
Defined.

(** C3, the claim as it was worded, fails for GetAllBackends: a 500 list
    response whose body breaks off while it is read gives
    "cant read response body", a message that contains neither the status
    code nor any byte of the body, while DeleteBackend reports the code for
    the same answer. *)
Lemma C3_list_read_failure_counterexample :
  let answer :=
    {| http.StatusCode := 500;
       http.Body := {| http.data := "Internal Server Err";
                       http.err := Some "unexpected EOF" |} |} in
  let tg := exampleClient answer in
  http.StatusCode answer <> 200%Z
  /\ fst (HttpImpl_GetAllBackends standin.json_Unmarshal standin.url_Parse tg)
     = [listRequest]
  /\ httpclient tg listRequest = inr answer
  /\ snd (HttpImpl_GetAllBackends standin.json_Unmarshal standin.url_Parse tg)
     = inl "cant read response body"
  /\ ~ strings.Contains "cant read response body"
        (fmt.d (http.StatusCode answer))
  /\ snd (HttpImpl_DeleteBackend standin.url_Parse tg "trino-1")
     = Some "bad http response code: 500, body: Internal Server Err".
Proof.
  intros answer tg.
  split; [discriminate|]. split; [reflexivity|]. split; [reflexivity|].
  split; [reflexivity|]. split; [|reflexivity].
  intros [pre [post Hsplit]]. simpl in Hsplit.
  repeat (destruct pre as [|? pre]; simpl in Hsplit;
          [discriminate Hsplit | injection Hsplit as _ Hsplit]).
  destruct pre; discriminate Hsplit.
Qed.

(** A 200 list response with an HTML page for a body. *)
Lemma C6_malformed_list_is_decoding_error_witness :
  let tg := exampleClient (http.complete 200 "<html>gateway</html>") in
  fst (HttpImpl_GetAllBackends standin.json_Unmarshal standin.url_Parse tg)
  = [listRequest]
  /\ httpclient tg listRequest = inr (http.complete 200 "<html>gateway</html>")
  /\ standin.json_Unmarshal "<html>gateway</html>"
     = inl "invalid character '<' looking for beginning of value"
  /\ snd (HttpImpl_GetAllBackends standin.json_Unmarshal standin.url_Parse tg)
     = inl "cant unmarshal response: invalid character '<' looking for beginning of value, body: <html>gateway</html>".
Proof.
  intros tg.
  split; [reflexivity|]. split; [reflexivity|]. split; [reflexivity|].
  exact (proj1 (proj1 (C6_malformed_list_is_decoding_error
                         standin.json_Unmarshal standin.url_Parse tg
                         listRequest "<html>gateway</html>" eq_refl eq_refl)
                  "invalid character '<' looking for beginning of value"
                  eq_refl)).
Defined.

(** C6, the claim as it was worded, fails where the library accepts a text
    that is no array of entity objects.  With a decoder that, as
    [json.Unmarshal] does, decodes [null] to the nil slice and [[null]] to a
    slice of one nil pointer, a 200 list response with either body makes
    GetAllBackends return that slice and no error: the first body is no
    array, the element of the second is no object. *)
Lemma C6_accepted_non_array_counterexample :
  standin.json_Unmarshal "null" = inr []
  /\ standin.json_Unmarshal "[null]" = inr [None]
  /\ snd (HttpImpl_GetAllBackends standin.json_Unmarshal standin.url_Parse
            (exampleClient (http.complete 200 "null")))
     = inr []
  /\ snd (HttpImpl_GetAllBackends standin.json_Unmarshal standin.url_Parse
            (exampleClient (http.complete 200 "[null]")))
     = inr [None]
  /\ ~ (exists e,
          snd (HttpImpl_GetAllBackends standin.json_Unmarshal
                 standin.url_Parse
                 (exampleClient (http.complete 200 "[null]")))
          = inl e).
Proof.
  repeat split; try reflexivity.
  intros [e He]. discriminate He.
Qed.

(** A 200 list response with the body [[]]. *)
Lemma C7_empty_array_is_empty_list_witness :
  let tg := exampleClient (http.complete 200 "[]") in
  standin.json_Unmarshal "[]" = inr []
  /\ fst (HttpImpl_GetAllBackends standin.json_Unmarshal standin.url_Parse tg)
     = [listRequest]
  /\ httpclient tg listRequest = inr (http.complete 200 "[]")
  /\ snd (HttpImpl_GetAllBackends standin.json_Unmarshal standin.url_Parse tg)
     = inr [].
Proof.
  intros tg.
  split; [reflexivity|]. split; [reflexivity|]. split; [reflexivity|].
  exact (proj1 (C7_empty_array_is_empty_list standin.json_Unmarshal
                  standin.url_Parse tg listRequest eq_refl eq_refl eq_refl)).
Defined.

(** Delete of "trino-1" against a gateway that answers 404. *)
Lemma C8_delete_posts_raw_name_witness :
  let tg := exampleClient (http.complete 404 "Not Found") in
  standin.url_Parse (getFullUrl tg "/gateway/backend/modify/delete") = None
  /\ fst (HttpImpl_DeleteBackend standin.url_Parse tg "trino-1")
     = [ {| http.Method := "POST";
            http.URL := "http://127.0.0.1:18080/gateway/backend/modify/delete";
            http.ReqBody := Some "trino-1";
            http.BasicAuth := None |} ]
  /\ snd (HttpImpl_DeleteBackend standin.url_Parse tg "trino-1")
     = Some "bad http response code: 404, body: Not Found".
Proof.
  intros tg.
  pose proof (C8_delete_posts_raw_name standin.url_Parse tg "trino-1" eq_refl)
    as [Hsent Herror].
  split; [reflexivity|]. split; [exact Hsent|].
  exact (proj1 (Herror "Not Found" None eq_refl)).
Defined.

(** The endpoint of the example configuration, with and without the
    trailing "/". *)
Lemma C9_trailing_slash_equivalent_witness :
  strings.HasSuffix "http://127.0.0.1:18080" "/" = false
  /\ (forall httpclient auth subpath,
        getFullUrl {| httpclient := httpclient; auth := auth;
                      endpoint := "http://127.0.0.1:18080/" |} subpath
        = getFullUrl {| httpclient := httpclient; auth := auth;
                        endpoint := "http://127.0.0.1:18080" |} subpath).
Proof.
  split; [reflexivity|].
  intros httpclient auth subpath.
  exact (proj1 (proj1 (C9_trailing_slash_equivalent standin.json_Marshal
                         standin.json_Unmarshal standin.url_Parse
                         httpclient auth "http://127.0.0.1:18080" eq_refl)
                  subpath)).
Defined.

(** ** The name-matching scan *)

Lemma rangeBackends_app (name : string) (l1 l2 : list (option Backend))
  (found : option Backend) :
  provider.rangeBackends name (l1 ++ l2)%list found
  = match provider.rangeBackends name l1 found with
    | Returned found' => provider.rangeBackends name l2 found'
    | Panicked reason found' => Panicked reason found'
    end.
Proof.
  revert found; induction l1 as [|[a|] l1 IH]; intros found; simpl;
    [reflexivity | apply IH | reflexivity].
Qed.

(** A nil entry anywhere in the slice stops the loop with a panic. *)
Lemma rangeBackends_nil_entry (name : string)
  (backends : list (option Backend)) (found : option Backend) :
  In None backends ->
  exists found',
    provider.rangeBackends name backends found
    = Panicked nilDereference found'.
Proof.
  revert found; induction backends as [|[a|] backends IH]; intros found Hnil.
  - destruct Hnil.
  - destruct Hnil as [Habs|Hnil]; [discriminate Habs|]. simpl. now apply IH.
  - simpl. now exists found.
Qed.

(** The loop ends without a panic only on a slice without a nil entry. *)
Lemma rangeBackends_returned (name : string)
  (backends : list (option Backend)) (found found' : option Backend) :
  provider.rangeBackends name backends found = Returned found' ->
  ~ In None backends.
Proof.
  intros Hscan Hnil.
  destruct (rangeBackends_nil_entry name backends found Hnil) as [f Hpanic].
  congruence.
Qed.

(** A slice without a nil entry is a list of records. *)
Lemma no_nil_entry_records (backends : list (option Backend)) :
  ~ In None backends -> exists records, backends = map Some records.
Proof.
  induction backends as [|[a|] backends IH]; intros Hnone.
  - now exists [].
  - destruct IH as [records ->]; [intros Hin; apply Hnone; now right|].
    now exists (a :: records).
  - exfalso. apply Hnone. now left.
Qed.

Lemma records_no_nil_entry (records : list Backend) :
  ~ In None (map Some records).
Proof.
  intros Hin. apply in_map_iff in Hin as [x [Habs _]]. discriminate Habs.
Qed.

Lemma find_app_first {A : Type} (p : A -> bool) (l1 l2 : list A) :
  find p (l1 ++ l2)%list
  = match find p l1 with Some x => Some x | None => find p l2 end.
Proof.
  induction l1 as [|a l1 IH]; simpl; [reflexivity|].
  now destruct (p a).
Qed.

(** On a slice of records the loop of the source computes the last match of
    the specification. *)
Lemma rangeBackends_lastMatching (name : string) (records : list Backend)
  (found : option Backend) :
  provider.rangeBackends name (map Some records) found
  = Returned
      match lastMatching name records with Some x => Some x | None => found end.
Proof.
  unfold lastMatching.
  revert found; induction records as [|a records IH]; intros found;
    [reflexivity|].
  simpl provider.rangeBackends. rewrite IH. simpl rev. rewrite find_app_first.
  destruct (find _ (rev records)); [reflexivity|]. simpl.
  now destruct (String.eqb (Name a) name).
Qed.

Lemma lastMatching_found (name : string) (records : list Backend)
  (x : Backend) :
  lastMatching name records = Some x -> In x records /\ Name x = name.
Proof.
  unfold lastMatching. intros Hfind.
  apply find_some in Hfind as [Hin Hname].
  split; [now apply in_rev | now apply String.eqb_eq].
Qed.

Lemma lastMatching_absent (name : string) (records : list Backend) :
  (forall b, In b records -> Name b <> name) ->
  lastMatching name records = None.
Proof.
  intros Habsent. destruct (lastMatching name records) as [x|] eqn:Hlast;
    [|reflexivity].
  apply lastMatching_found in Hlast as [Hin Hname].
  now destruct (Habsent x Hin).
Qed.

Lemma lastMatching_present (name : string) (records : list Backend) :
  (exists b, In b records /\ Name b = name) ->
  exists x, lastMatching name records = Some x.
Proof.
  intros [b [Hin Hname]].
  destruct (lastMatching name records) as [x|] eqn:Hlast; [now exists x|].
  unfold lastMatching in Hlast.
  pose proof (find_none _ _ Hlast b (proj1 (in_rev _ _) Hin)) as Hno.
  simpl in Hno. rewrite Hname, String.eqb_refl in Hno. discriminate Hno.
Qed.

Lemma lastMatching_final (name : string) (before after : list Backend)
  (final : Backend) :
  Name final = name ->
  (forall b, In b after -> Name b <> name) ->
  lastMatching name (before ++ final :: after) = Some final.
Proof.
  intros Hfinal Hafter. unfold lastMatching.
  rewrite rev_app_distr. simpl rev. rewrite <- app_assoc, find_app_first.
  replace (find _ (rev after)) with (@None Backend).
  - simpl. now rewrite Hfinal, String.eqb_refl.
  - symmetry. apply (lastMatching_absent name after Hafter).
Qed.

Lemma In_Some_map (b : Backend) (records : list Backend) :
  In (Some b) (map Some records) <-> In b records.
Proof.
  rewrite in_map_iff. split.
  - intros [x [[= ->] Hin]]. exact Hin.
  - intros Hin. now exists b.
Qed.

Lemma Append_nil (diags : diag.Diagnostics) : diag.Append diags [] = diags.
Proof. reflexivity. Qed.

(** ** The backend resource *)

Section ResourceProperties.

Context {C : Type} `{TrinoGatewayClient C}.

(** C2.  When the plan is read without error: Create and Update each make
    one call through the client, AddOrUpdateBackend, with the same entity,
    whose name, proxyTo, routingGroup and active are the plan's values.  If
    [external_url] is null or unknown in the plan, the entity's externalUrl
    is the value of [proxy_to]; if it is a known value, the entity carries
    that value unchanged.  When the call succeeds, both operations store a
    state whose [external_url] is the known value that was sent (so the
    value of [proxy_to] in the unset case), the other plan attributes as
    they were. *)
Theorem C2_external_url_defaults_to_proxy_to
  (r : provider.BackendResource) (req : provider.Request)
  (resp : provider.Response)
  (diags : diag.Diagnostics) (data : provider.BackendResourceModel) :
  tfsdk.Get (provider.Source req) = (diags, data) ->
  diag.HasError (diag.Append (provider.Diagnostics resp) diags) = false ->
  let sent externalUrl :=
    {| Name := types.ValueString (provider.Name data);
       ProxyTo := types.ValueString (provider.ProxyTo data);
       RoutingGroup := types.ValueString (provider.RoutingGroup data);
       Active := types.ValueBool (provider.Active data);
       ExternalUrl := externalUrl |} in
  let stored id externalUrl :=
    Some {| provider.Id := id;
            provider.Name := provider.Name data;
            provider.ProxyTo := provider.ProxyTo data;
            provider.Active := provider.Active data;
            provider.RoutingGroup := provider.RoutingGroup data;
            provider.ExternalUrl := types.StringValue externalUrl |} in
  forall externalUrl,
    (types.IsNull (provider.ExternalUrl data)
     || types.IsUnknown (provider.ExternalUrl data) = true
     /\ externalUrl = types.ValueString (provider.ProxyTo data))
    \/ provider.ExternalUrl data = types.StringValue externalUrl ->
    fst (provider.Create r req resp)
    = [provider.CallAddOrUpdateBackend (sent externalUrl)]
    /\ fst (provider.Update r req resp)
       = [provider.CallAddOrUpdateBackend (sent externalUrl)]
    /\ (AddOrUpdateBackend (provider.client r) (sent externalUrl) = None ->
        provider.State (snd (provider.Create r req resp))
        = stored (types.StringValue (types.ValueString (provider.Name data)))
            externalUrl
        /\ provider.State (snd (provider.Update r req resp))
           = stored (provider.Id data) externalUrl).
Proof.
  intros HGet Hclean sent stored externalUrl Hurl.
  unfold provider.Create, provider.Update.
  rewrite HGet. cbv zeta.
  change (provider.Diagnostics (provider.appendDiagnostics resp diags))
    with (diag.Append (provider.Diagnostics resp) diags).
  rewrite Hclean.
  clear HGet.
  destruct data as [id name proxyTo active routingGroup external].
  unfold sent, stored, provider.setState. simpl in *.
  destruct Hurl as [[Hunset ->] | ->].
  - destruct external as [| |value]; try discriminate Hunset; simpl;
      (destruct (AddOrUpdateBackend _ _);
       [ split; [reflexivity | split; [reflexivity | discriminate]]
       | split; [reflexivity | split; [reflexivity | intros _; now split]] ]).
  - simpl.
    destruct (AddOrUpdateBackend _ _);
      [ split; [reflexivity | split; [reflexivity | discriminate]]
      | split; [reflexivity | split; [reflexivity | intros _; now split]] ].
Qed.

(** What Read does once the prior state is read without error and the
    client has returned a slice: the outcome is decided by the loop. *)
Lemma Read_listed
  (r : provider.BackendResource) (req : provider.Request)
  (resp : provider.Response)
  (diags : diag.Diagnostics) (data : provider.BackendResourceModel)
  (backends : list (option Backend)) :
  tfsdk.Get (provider.Source req) = (diags, data) ->
  diag.HasError (diag.Append (provider.Diagnostics resp) diags) = false ->
  GetAllBackends (provider.client r) = inr backends ->
  provider.Read r req resp
  = ([provider.CallGetAllBackends],
     match provider.rangeBackends
             (types.ValueString (provider.Name data)) backends None with
     | Panicked reason _ =>
         Panicked reason
           {| provider.Diagnostics :=
                diag.Append (provider.Diagnostics resp) diags;
              provider.State := provider.State resp |}
     | Returned foundBackend =>
         Returned
           {| provider.Diagnostics :=
                diag.Append (provider.Diagnostics resp) diags;
              provider.State :=
                match foundBackend with
                | None => None
                | Some found =>
                    Some {| provider.Id := provider.Id data;
                            provider.Name := types.StringValue (Name found);
                            provider.ProxyTo :=
                              types.StringValue (ProxyTo found);
                            provider.Active := types.BoolValue (Active found);
                            provider.RoutingGroup :=
                              types.StringValue (RoutingGroup found);
                            provider.ExternalUrl :=
                              types.StringValue (ExternalUrl found) |}
                end |}
     end).
Proof.
  intros HGet Hclean Hlist.
  unfold provider.Read. rewrite HGet. cbv zeta.
  change (provider.Diagnostics (provider.appendDiagnostics resp diags))
    with (diag.Append (provider.Diagnostics resp) diags).
  rewrite Hclean, Hlist.
  now destruct (provider.rangeBackends _ backends None) as [[found|]|].
Qed.

(** What ImportState does once the client has returned a slice. *)
Lemma ImportState_listed
  (r : provider.BackendResource) (req : provider.ImportStateRequest)
  (resp : provider.Response) (backends : list (option Backend)) :
  GetAllBackends (provider.client r) = inr backends ->
  provider.ImportState r req resp
  = ([provider.CallGetAllBackends],
     match provider.rangeBackends (provider.ID req) backends None with
     | Panicked reason _ => Panicked reason resp
     | Returned None =>
         Panicked nilDereference
           {| provider.Diagnostics :=
                diag.AddError (provider.Diagnostics resp)
                  "Backend not found" "Backend not found";
              provider.State := provider.State resp |}
     | Returned (Some found) =>
         Returned
           {| provider.Diagnostics := provider.Diagnostics resp;
              provider.State :=
                Some {| provider.Id := types.StringNull;
                        provider.Name := types.StringValue (Name found);
                        provider.ProxyTo := types.StringValue (ProxyTo found);
                        provider.Active := types.BoolValue (Active found);
                        provider.RoutingGroup :=
                          types.StringValue (RoutingGroup found);
                        provider.ExternalUrl :=
                          types.StringValue (ExternalUrl found) |} |}
     end).
Proof.
  intros Hlist. unfold provider.ImportState. rewrite Hlist. cbv zeta.
  now destruct (provider.rangeBackends _ backends None) as [[found|]|].
Qed.

(** C1 (the code departs from the claim).  For every slice the client
    returns that has no entry named by the import identifier, ImportState
    does not return.  When no entry is nil it records the error
    "Backend not found" and, having no [return] there, goes on to read
    through the nil [foundBackend]: the call panics, the response with the
    error is never handed back and no state is set.  (A nil entry makes the
    loop itself panic, before the error is recorded.) *)
Theorem C1_import_absent_panics
  (r : provider.BackendResource) (req : provider.ImportStateRequest)
  (resp : provider.Response) (backends : list (option Backend)) :
  GetAllBackends (provider.client r) = inr backends ->
  (forall b, In (Some b) backends -> Name b <> provider.ID req) ->
  (~ In None backends ->
   provider.ImportState r req resp
   = ([provider.CallGetAllBackends],
      Panicked nilDereference
        {| provider.Diagnostics :=
             diag.AddError (provider.Diagnostics resp)
               "Backend not found" "Backend not found";
           provider.State := provider.State resp |}))
  /\ (In None backends ->
      provider.ImportState r req resp
      = ([provider.CallGetAllBackends], Panicked nilDereference resp))
  /\ (forall resp', snd (provider.ImportState r req resp) <> Returned resp').
Proof.
  intros Hlist Habsent.
  rewrite (ImportState_listed r req resp backends Hlist).
  assert (Hrecords : ~ In None backends ->
            provider.rangeBackends (provider.ID req) backends None
            = Returned None).
  { intros Hnone. destruct (no_nil_entry_records backends Hnone)
      as [records ->].
    rewrite rangeBackends_lastMatching, lastMatching_absent; [reflexivity|].
    intros b Hb. apply Habsent. now apply In_Some_map. }
  assert (Hnil : In None backends ->
            exists found,
              provider.rangeBackends (provider.ID req) backends None
              = Panicked nilDereference found)
    by apply rangeBackends_nil_entry.
  split; [|split].
  - intros Hnone. now rewrite Hrecords.
  - intros Hin. destruct (Hnil Hin) as [found ->]. reflexivity.
  - intros resp'. simpl snd.
    destruct (in_dec (fun x y : option Backend =>
                        ltac:(decide equality; decide equality;
                              try apply string_dec; apply bool_dec))
                None backends) as [Hin|Hnone].
    + destruct (Hnil Hin) as [found ->]. discriminate.
    + rewrite (Hrecords Hnone). discriminate.
Qed.

(** C4 (the code departs from the claim on a slice with a nil entry).  When
    the prior state is read without error and the client returns a slice
    none of whose entries is nil: if no entry has the tracked name, Read
    returns with the state removed and with no diagnostic added to those of
    reading the prior state (none of which is an error); if some entry has
    the tracked name, Read returns with a state whose name, proxy_to,
    routing_group, active and external_url are the known values of the
    entry [found] that has the tracked name, the last such entry ([id] is
    kept), again with no diagnostic added.  When an entry of the slice is
    nil, Read panics instead, whatever the names of the other entries: it
    neither removes nor refreshes the state. *)
Theorem C4_read_removes_or_refreshes
  (r : provider.BackendResource) (req : provider.Request)
  (resp : provider.Response)
  (diags : diag.Diagnostics) (data : provider.BackendResourceModel)
  (backends : list (option Backend)) :
  tfsdk.Get (provider.Source req) = (diags, data) ->
  diag.HasError (diag.Append (provider.Diagnostics resp) diags) = false ->
  GetAllBackends (provider.client r) = inr backends ->
  let name := types.ValueString (provider.Name data) in
  let diagnostics := diag.Append (provider.Diagnostics resp) diags in
  (~ In None backends ->
   ((forall b, In (Some b) backends -> Name b <> name) ->
    snd (provider.Read r req resp)
    = Returned {| provider.Diagnostics := diagnostics;
                  provider.State := None |})
   /\ ((exists b, In (Some b) backends /\ Name b = name) ->
       exists records found,
         backends = map Some records
         /\ In found records /\ Name found = name
         /\ lastMatching name records = Some found
         /\ snd (provider.Read r req resp)
            = Returned
                {| provider.Diagnostics := diagnostics;
                   provider.State :=
                     Some {| provider.Id := provider.Id data;
                             provider.Name := types.StringValue (Name found);
                             provider.ProxyTo :=
                               types.StringValue (ProxyTo found);
                             provider.Active :=
                               types.BoolValue (Active found);
                             provider.RoutingGroup :=
                               types.StringValue (RoutingGroup found);
                             provider.ExternalUrl :=
                               types.StringValue (ExternalUrl found) |} |}))
  /\ (In None backends ->
      provider.Read r req resp
      = ([provider.CallGetAllBackends],
         Panicked nilDereference
           {| provider.Diagnostics := diagnostics;
              provider.State := provider.State resp |})).
Proof.
  intros HGet Hclean Hlist name diagnostics.
  rewrite (Read_listed r req resp diags data backends HGet Hclean Hlist).
  fold name. fold diagnostics. split.
  - intros Hnone. destruct (no_nil_entry_records backends Hnone)
      as [records ->].
    rewrite rangeBackends_lastMatching. split.
    + intros Habsent. rewrite lastMatching_absent; [reflexivity|].
      intros b Hb. apply Habsent. now apply In_Some_map.
    + intros [b [Hb Hname]].
      destruct (lastMatching_present name records) as [found Hlast].
      { exists b. split; [now apply In_Some_map | exact Hname]. }
      destruct (lastMatching_found _ _ _ Hlast) as [Hin Hfound].
      exists records, found. rewrite Hlast. now repeat split.
  - intros Hin.
    destruct (rangeBackends_nil_entry name backends None Hin) as [found ->].
    reflexivity.
Qed.

(** C5 (the code departs from the claim on a slice with a nil entry).  In a
    slice of records that holds the searched name twice or more, the scan
    yields the last entry of that name: for the records
    [before ++ first :: between ++ final :: after] where [first] and
    [final] have the name and no entry of [after] has it, the loop ends with
    [final], whatever [before] and [between] hold, and this is the last
    match as the specification words it.  Read then returns with the state
    refreshed from [final] and ImportState returns with the state populated
    from [final]; neither adds a diagnostic.  When an entry of the slice is
    nil, the loop panics and with it Read and ImportState, however many
    entries have the name. *)
Theorem C5_last_match_wins
  (name : string) (before between after : list Backend)
  (first final : Backend) :
  Name first = name ->
  Name final = name ->
  (forall b, In b after -> Name b <> name) ->
  let records := (before ++ first :: between ++ final :: after)%list in
  let backends := map Some records in
  let refreshed id :=
    Some {| provider.Id := id;
            provider.Name := types.StringValue (Name final);
            provider.ProxyTo := types.StringValue (ProxyTo final);
            provider.Active := types.BoolValue (Active final);
            provider.RoutingGroup := types.StringValue (RoutingGroup final);
            provider.ExternalUrl := types.StringValue (ExternalUrl final) |} in
  provider.rangeBackends name backends None = Returned (Some final)
  /\ lastMatching name records = Some final
  /\ (forall (r : provider.BackendResource) req resp diags data,
        tfsdk.Get (provider.Source req) = (diags, data) ->
        diag.HasError (diag.Append (provider.Diagnostics resp) diags) = false ->
        types.ValueString (provider.Name data) = name ->
        GetAllBackends (provider.client r) = inr backends ->
        snd (provider.Read r req resp)
        = Returned
            {| provider.Diagnostics :=
                 diag.Append (provider.Diagnostics resp) diags;
               provider.State := refreshed (provider.Id data) |})
  /\ (forall (r : provider.BackendResource) req resp,
        provider.ID req = name ->
        GetAllBackends (provider.client r) = inr backends ->
        snd (provider.ImportState r req resp)
        = Returned
            {| provider.Diagnostics := provider.Diagnostics resp;
               provider.State := refreshed types.StringNull |})
  /\ (forall (r : provider.BackendResource) req importReq resp diags data
        (entries : list (option Backend)),
        In None entries ->
        GetAllBackends (provider.client r) = inr entries ->
        (forall found,
            provider.rangeBackends name entries None <> Returned found)
        /\ snd (provider.ImportState r importReq resp)
           = Panicked nilDereference resp
        /\ (tfsdk.Get (provider.Source req) = (diags, data) ->
            diag.HasError (diag.Append (provider.Diagnostics resp) diags)
            = false ->
            snd (provider.Read r req resp)
            = Panicked nilDereference
                {| provider.Diagnostics :=
                     diag.Append (provider.Diagnostics resp) diags;
                   provider.State := provider.State resp |})).
Proof.
  intros Hfirst Hfinal Hafter records backends refreshed.
  assert (Hlast : lastMatching name records = Some final).
  { unfold records.
    replace (before ++ first :: between ++ final :: after)%list
      with ((before ++ first :: between) ++ final :: after)%list
      by (rewrite <- app_assoc; reflexivity).
    now apply lastMatching_final. }
  assert (Hscan : provider.rangeBackends name backends None
                  = Returned (Some final)).
  { unfold backends. now rewrite rangeBackends_lastMatching, Hlast. }
  split; [exact Hscan | split; [exact Hlast | split; [|split]]].
  - intros r req resp diags data HGet Hclean Hname Hlist.
    rewrite (Read_listed r req resp diags data backends HGet Hclean Hlist).
    now rewrite Hname, Hscan.
  - intros r req resp Hid Hlist.
    rewrite (ImportState_listed r req resp backends Hlist).
    now rewrite Hid, Hscan.
  - intros r req importReq resp diags data entries Hnil Hlist.
    split; [|split].
    + intros found.
      destruct (rangeBackends_nil_entry name entries None Hnil) as [f ->].
      discriminate.
    + rewrite (ImportState_listed r importReq resp entries Hlist).
      destruct (rangeBackends_nil_entry (provider.ID importReq) entries None
                  Hnil) as [f ->].
      reflexivity.
    + intros HGet Hclean.
      rewrite (Read_listed r req resp diags data entries HGet Hclean Hlist).
      destruct (rangeBackends_nil_entry
                  (types.ValueString (provider.Name data)) entries None Hnil)
        as [f ->].
      reflexivity.
Qed.

End ResourceProperties.

(** ** The provider configuration *)

Lemma HasError_AddError (diags : diag.Diagnostics) (summary detail : string) :
  diag.HasError (diag.AddError diags summary detail) = true.
Proof.
  unfold diag.AddError, diag.Append. simpl.
  destruct (diag.Contains diags _) eqn:Hin.
  - apply existsb_exists in Hin as [x [Hx Heq]].
    apply existsb_exists. exists x. split; [exact Hx|].
    unfold diag.Equal in Heq. simpl in Heq.
    now destruct (diag.severity x).
  - unfold diag.HasError. rewrite existsb_app. simpl. apply orb_true_r.
Qed.

Section ProviderProperties.

Variable json_Marshal : Backend -> string + string.
Variable json_Unmarshal : string -> string + list (option Backend).
Variable url_Parse : string -> option string.
Variable http_DefaultClient : http.Client.

(** A client without credentials sends no request with an Authorization
    header. *)
Lemma no_auth_no_header (tg : trinoGatewayClientHttpImpl)
  (backend : Backend) (name : string) :
  auth tg = None ->
  Forall (fun request => http.BasicAuth request = None)
    (fst (HttpImpl_AddOrUpdateBackend json_Marshal url_Parse tg backend)
     ++ fst (HttpImpl_DeleteBackend url_Parse tg name)
     ++ fst (HttpImpl_GetAllBackends json_Unmarshal url_Parse tg))%list.
Proof.
  intros Hauth.
  rewrite AddOrUpdateBackend_sent, DeleteBackend_sent, GetAllBackends_sent.
  unfold addAuth, http_NewRequest. rewrite Hauth.
  destruct (json_Marshal backend) as [e|requestBody]; simpl;
    repeat match goal with
           | |- context [url_Parse ?u] => destruct (url_Parse u)
           end;
    simpl; repeat constructor.
Qed.

(** C10.  For a configuration that is read without error and has an
    endpoint: when login is null, whatever the password (so also when it is
    set), Configure adds no diagnostic and stores a client built without
    credentials, and no request of that client carries an Authorization
    header; when login and password are both non-null, it stores a client
    with these credentials; when login is non-null and password is null,
    and only then, it adds the error "Cant configure trino gateway client
    auth" and stores no client. *)
Theorem C10_lone_password_is_ignored
  (req : provider.ConfigureRequest) (resp : provider.ConfigureResponse)
  (diags : diag.Diagnostics) (data : provider.TrinoGatewayProviderModel) :
  tfsdk.Get (provider.Config req) = (diags, data) ->
  diag.HasError (diag.Append (provider.ConfigureDiagnostics resp) diags)
  = false ->
  types.IsNull (provider.Endpoint data) = false ->
  let diagnostics := diag.Append (provider.ConfigureDiagnostics resp) diags in
  let client auth :=
    {| httpclient := http_DefaultClient; auth := auth;
       endpoint := types.ValueString (provider.Endpoint data) |} in
  let configured auth :=
    {| provider.ConfigureDiagnostics := diagnostics;
       provider.DataSourceData := Some (client auth);
       provider.ResourceData := Some (client auth) |} in
  (types.IsNull (provider.Login data) = true ->
   provider.Configure http_DefaultClient req resp = configured None
   /\ forall backend name,
       Forall (fun request => http.BasicAuth request = None)
         (fst (HttpImpl_AddOrUpdateBackend json_Marshal url_Parse
                 (client None) backend)
          ++ fst (HttpImpl_DeleteBackend url_Parse (client None) name)
          ++ fst (HttpImpl_GetAllBackends json_Unmarshal url_Parse
                    (client None)))%list)
  /\ (types.IsNull (provider.Login data) = false ->
      types.IsNull (provider.Password data) = false ->
      provider.Configure http_DefaultClient req resp
      = configured
          (Some {| Login := types.ValueString (provider.Login data);
                   Password := types.ValueString (provider.Password data) |}))
  /\ (types.IsNull (provider.Login data) = false ->
      types.IsNull (provider.Password data) = true ->
      provider.Configure http_DefaultClient req resp
      = {| provider.ConfigureDiagnostics :=
             diag.AddError diagnostics
               "Cant configure trino gateway client auth"
               "Cant configure trino gateway client auth: if login set, password should be set too";
           provider.DataSourceData := provider.DataSourceData resp;
           provider.ResourceData := provider.ResourceData resp |}
      /\ diag.HasError
           (provider.ConfigureDiagnostics
              (provider.Configure http_DefaultClient req resp)) = true).
Proof.
  intros HGet Hclean Hendpoint diagnostics client configured.
  assert (Hrun : forall login password,
             types.IsNull (provider.Login data) = login ->
             types.IsNull (provider.Password data) = password ->
             provider.Configure http_DefaultClient req resp
             = if login then configured None
               else if password then
                 {| provider.ConfigureDiagnostics :=
                      diag.AddError diagnostics
                        "Cant configure trino gateway client auth"
                        "Cant configure trino gateway client auth: if login set, password should be set too";
                    provider.DataSourceData := provider.DataSourceData resp;
                    provider.ResourceData := provider.ResourceData resp |}
               else configured
                      (Some {| Login := types.ValueString (provider.Login data);
                               Password :=
                                 types.ValueString (provider.Password data) |})).
  { intros login password Hlogin Hpassword.
    unfold provider.Configure. rewrite HGet. cbv zeta.
    cbn [provider.ConfigureDiagnostics provider.DataSourceData
           provider.ResourceData].
    fold diagnostics. unfold diagnostics at 1. rewrite Hclean, Hendpoint.
    rewrite Hlogin, Hpassword.
    destruct login; [reflexivity|]. now destruct password. }
  split; [|split].
  - intros Hlogin. split.
    + apply (Hrun true (types.IsNull (provider.Password data)) Hlogin eq_refl).
    + intros backend name. now apply no_auth_no_header.
  - intros Hlogin Hpassword. apply (Hrun false false Hlogin Hpassword).
  - intros Hlogin Hpassword.
    rewrite (Hrun false true Hlogin Hpassword). split; [reflexivity|].
    apply HasError_AddError.
Qed.

End ProviderProperties.

(** *** The resource and the provider on examples *)

(** Importing "trino-1" from a gateway that only knows "trino-2". *)
Lemma C1_import_absent_panics_witness :
  let backends := [Some (trino "trino-2" "http://localhost:8086" "adhoc" true
                           "http://localhost:8086")] in
  let r := resourceListing backends in
  let req := {| provider.ID := "trino-1" |} in
  GetAllBackends (provider.client r) = inr backends
  /\ (forall b, In (Some b) backends -> Name b <> provider.ID req)
  /\ ~ In None backends
  /\ provider.ImportState (H := standin.scripted_client) r req emptyResponse
     = ([provider.CallGetAllBackends],
        Panicked nilDereference
          {| provider.Diagnostics :=
               [diag.NewErrorDiagnostic "Backend not found" "Backend not found"];
             provider.State := None |}).
Proof.
  intros backends r req.
  assert (Habsent : forall b, In (Some b) backends -> Name b <> provider.ID req).
  { intros b [[= <-] | []]. discriminate. }
  assert (Hnone : ~ In None backends).
  { intros [Habs | []]. discriminate Habs. }
  split; [reflexivity|]. split; [exact Habsent|]. split; [exact Hnone|].
  exact (proj1 (C1_import_absent_panics (H := standin.scripted_client)
                  r req emptyResponse backends eq_refl Habsent) Hnone).
Defined.

(** Create and Update of "trino-1" with no [external_url] in the plan. *)
Lemma C2_external_url_defaults_to_proxy_to_witness :
  let r := resourceOver [] in
  let req := reading examplePlan in
  let sent := trino "trino-1" "http://localhost:8085" "some" false
                "http://localhost:8085" in
  tfsdk.Get (provider.Source req) = ([], examplePlan)
  /\ diag.HasError (diag.Append (provider.Diagnostics emptyResponse) [])
     = false
  /\ fst (provider.Create (H := standin.scripted_client) r req emptyResponse)
     = [provider.CallAddOrUpdateBackend sent]
  /\ fst (provider.Update (H := standin.scripted_client) r req emptyResponse)
     = [provider.CallAddOrUpdateBackend sent]
  /\ provider.State
       (snd (provider.Create (H := standin.scripted_client) r req emptyResponse))
     = Some {| provider.Id := types.StringValue "trino-1";
               provider.Name := types.StringValue "trino-1";
               provider.ProxyTo := types.StringValue "http://localhost:8085";
               provider.Active := types.BoolValue false;
               provider.RoutingGroup := types.StringValue "some";
               provider.ExternalUrl :=
                 types.StringValue "http://localhost:8085" |}.
Proof.
  intros r req sent.
  pose proof (C2_external_url_defaults_to_proxy_to
                (H := standin.scripted_client) r req emptyResponse []
                examplePlan eq_refl eq_refl "http://localhost:8085"
                (or_introl (conj eq_refl eq_refl)))
    as (Hcreate & Hupdate & Hstate).
  split; [reflexivity|]. split; [reflexivity|].
  split; [exact Hcreate|]. split; [exact Hupdate|].
  exact (proj1 (Hstate eq_refl)).
Defined.

(** Read of the tracked "trino-1" when the list response was [[null]], a
    slice of one nil entry in which no backend has the tracked name: Read
    panics.  When the gateway lists "trino-1" with other values, the five
    attributes are those of the listed record. *)
Lemma C4_read_removes_or_refreshes_witness :
  let req := reading trackedTrino1 in
  let resp := {| provider.Diagnostics := [];
                 provider.State := Some trackedTrino1 |} in
  let listed := trino "trino-1" "x" "g" true "x" in
  tfsdk.Get (provider.Source req) = ([], trackedTrino1)
  /\ diag.HasError (diag.Append (provider.Diagnostics resp) []) = false
  /\ GetAllBackends (provider.client (resourceListing [None])) = inr [None]
  /\ In None [@None Backend]
  /\ (forall b, In (Some b) [None] -> Name b <> "trino-1")
  /\ provider.Read (H := standin.scripted_client) (resourceListing [None])
       req resp
     = ([provider.CallGetAllBackends], Panicked nilDereference resp)
  /\ snd (provider.Read (H := standin.scripted_client)
            (resourceListing [Some listed]) req resp)
     = Returned
         {| provider.Diagnostics := [];
            provider.State :=
              Some {| provider.Id := types.StringValue "trino-1";
                      provider.Name := types.StringValue "trino-1";
                      provider.ProxyTo := types.StringValue "x";
                      provider.Active := types.BoolValue true;
                      provider.RoutingGroup := types.StringValue "g";
                      provider.ExternalUrl := types.StringValue "x" |} |}.
Proof.
  intros req resp listed.
  assert (Hnil : In None [@None Backend]) by now left.
  assert (Hnames : forall b, In (Some b) [@None Backend] -> Name b <> "trino-1").
  { intros b [Habs | []]. discriminate Habs. }
  assert (Hnone : ~ In None [Some listed]).
  { intros [Habs | []]. discriminate Habs. }
  assert (Hpresent : exists b, In (Some b) [Some listed] /\ Name b = "trino-1").
  { exists listed. split; [now left | reflexivity]. }
  split; [reflexivity|]. split; [reflexivity|]. split; [reflexivity|].
  split; [exact Hnil|]. split; [exact Hnames|]. split.
  - exact (proj2 (C4_read_removes_or_refreshes (H := standin.scripted_client)
                    (resourceListing [None]) req resp [] trackedTrino1 [None]
                    eq_refl eq_refl eq_refl) Hnil).
  - destruct (proj2 (proj1 (C4_read_removes_or_refreshes
                              (H := standin.scripted_client)
                              (resourceListing [Some listed]) req resp []
                              trackedTrino1 [Some listed]
                              eq_refl eq_refl eq_refl) Hnone) Hpresent)
      as (records & found & Hrecords & Hin & Hname & Hlast & Hread).
    destruct records as [|x [|y records]]; try discriminate Hrecords.
    injection Hrecords as <-. injection Hlast as <-. exact Hread.
Defined.

(** A gateway that lists "trino-1" twice, an entry of another name after
    the second: Read and ImportState take the second.  With a nil entry
    between the two, ImportState panics. *)
Lemma C5_last_match_wins_witness :
  let first := trino "trino-1" "http://a:8080" "adhoc" true "http://a:8080" in
  let final := trino "trino-1" "http://b:8080" "etl" false "http://b:8080" in
  let other := trino "trino-2" "http://c:8080" "adhoc" true "http://c:8080" in
  let req := {| provider.ID := "trino-1" |} in
  Name first = "trino-1"
  /\ Name final = "trino-1"
  /\ (forall b, In b [other] -> Name b <> "trino-1")
  /\ provider.rangeBackends "trino-1" [Some first; Some final; Some other]
       None = Returned (Some final)
  /\ snd (provider.ImportState (H := standin.scripted_client)
            (resourceOver [first; final; other]) req emptyResponse)
     = Returned
         {| provider.Diagnostics := [];
            provider.State :=
              Some {| provider.Id := types.StringNull;
                      provider.Name := types.StringValue "trino-1";
                      provider.ProxyTo := types.StringValue "http://b:8080";
                      provider.Active := types.BoolValue false;
                      provider.RoutingGroup := types.StringValue "etl";
                      provider.ExternalUrl :=
                        types.StringValue "http://b:8080" |} |}
  /\ In None [Some first; None; Some final]
  /\ snd (provider.ImportState (H := standin.scripted_client)
            (resourceListing [Some first; None; Some final]) req emptyResponse)
     = Panicked nilDereference emptyResponse.
Proof.
  intros first final other req.
  assert (Hafter : forall b, In b [other] -> Name b <> "trino-1").
  { intros b [<- | []]. discriminate. }
  assert (Hnil : In None [Some first; None; Some final]) by (right; now left).
  pose proof (C5_last_match_wins (H := standin.scripted_client)
                "trino-1" [] [] [other] first final
                eq_refl eq_refl Hafter)
    as (Hscan & Hlast & Hread & Himport & Hpanic).
  split; [reflexivity|]. split; [reflexivity|]. split; [exact Hafter|].
  split; [exact Hscan|]. split.
  - exact (Himport (resourceOver [first; final; other]) req emptyResponse
             eq_refl eq_refl).
  - split; [exact Hnil|].
    exact (proj1 (proj2 (Hpanic
                           (resourceListing [Some first; None; Some final])
                           (reading trackedTrino1) req emptyResponse []
                           trackedTrino1 [Some first; None; Some final]
                           Hnil eq_refl))).
Defined.

(** A configuration with an endpoint and a password but no login. *)
Lemma C10_lone_password_is_ignored_witness :
  let data :=
    {| provider.Endpoint := types.StringValue "http://127.0.0.1:18080";
       provider.Login := types.StringNull;
       provider.Password := types.StringValue "admin" |} in
  let req := {| provider.Config := {| tfsdk.Get := ([], data) |} |} in
  let resp :=
    {| provider.ConfigureDiagnostics := [];
       provider.DataSourceData := None;
       provider.ResourceData := None |} in
  let client :=
    {| httpclient := standin.server (inl "connection refused");
       auth := None;
       endpoint := "http://127.0.0.1:18080" |} in
  tfsdk.Get (provider.Config req) = ([], data)
  /\ diag.HasError (diag.Append (provider.ConfigureDiagnostics resp) [])
     = false
  /\ types.IsNull (provider.Endpoint data) = false
  /\ types.IsNull (provider.Login data) = true
  /\ provider.Configure (standin.server (inl "connection refused")) req resp
     = {| provider.ConfigureDiagnostics := [];
          provider.DataSourceData := Some client;
          provider.ResourceData := Some client |}.
Proof.
  intros data req resp client.
  split; [reflexivity|]. split; [reflexivity|]. split; [reflexivity|].
  split; [reflexivity|].
  exact (proj1 (proj1 (C10_lone_password_is_ignored standin.json_Marshal
                         standin.json_Unmarshal standin.url_Parse
                         (standin.server (inl "connection refused"))
                         req resp [] data eq_refl eq_refl eq_refl)
                  eq_refl)).
Defined.

(** * Further properties of the client *)

Section ClientCoverage.

Variable json_Marshal : Backend -> string + string.
Variable json_Unmarshal : string -> string + list (option Backend).
Variable url_Parse : string -> option string.

(** As [sent_request] above: from the request an operation sent to the
    branch that built it, with the answer put in place. *)
Ltac answered Hsent Hanswer :=
  repeat match type of Hsent with
         | context [match ?x with _ => _ end] =>
             destruct x eqn:?; try discriminate Hsent
         end;
  injection Hsent as Hsent; cbv zeta; rewrite Hsent, Hanswer; simpl.

(** X1.  No operation retries: whatever the marshaller, the URL parser and the
    server do, AddOrUpdateBackend, DeleteBackend and GetAllBackends each
    hand at most one request to the HTTP client. *)
Theorem client_sends_at_most_one_request
  (tg : trinoGatewayClientHttpImpl) (backend : Backend) (name : string) :
  (List.length
     (fst (HttpImpl_AddOrUpdateBackend json_Marshal url_Parse tg backend))
   <= 1)%nat
  /\ (List.length (fst (HttpImpl_DeleteBackend url_Parse tg name)) <= 1)%nat
  /\ (List.length
        (fst (HttpImpl_GetAllBackends json_Unmarshal url_Parse tg)) <= 1)%nat.
Proof.
  rewrite AddOrUpdateBackend_sent, DeleteBackend_sent, GetAllBackends_sent.
  repeat split;
    repeat match goal with
           | |- context [match ?x with _ => _ end] => destruct x
           end;
    simpl; lia.
Qed.

(** X2.  A client with credentials puts them on every request it sends:
    each request of the three operations carries the Basic credentials
    [Login], [Password] of the client's [auth]. *)
Theorem client_requests_carry_credentials
  (tg : trinoGatewayClientHttpImpl) (a : Auth)
  (backend : Backend) (name : string) :
  auth tg = Some a ->
  Forall (fun request => http.BasicAuth request = Some (Login a, Password a))
    (fst (HttpImpl_AddOrUpdateBackend json_Marshal url_Parse tg backend)
     ++ fst (HttpImpl_DeleteBackend url_Parse tg name)
     ++ fst (HttpImpl_GetAllBackends json_Unmarshal url_Parse tg))%list.
Proof.
  intros Hauth.
  rewrite AddOrUpdateBackend_sent, DeleteBackend_sent, GetAllBackends_sent.
  unfold addAuth, http_NewRequest. rewrite Hauth.
  destruct (json_Marshal backend) as [e|requestBody]; simpl;
    repeat match goal with
           | |- context [url_Parse ?u] => destruct (url_Parse u)
           end;
    simpl; repeat constructor.
Qed.

(** X3.  AddOrUpdateBackend and DeleteBackend report success exactly when the
    request they sent was answered with status 200.  The response body plays
    no part in it: a 200 answer is a success whatever its body holds and
    even if reading it failed, and nothing else is. *)
Theorem upsert_and_delete_succeed_iff_200
  (tg : trinoGatewayClientHttpImpl) (backend : Backend) (name : string) :
  (snd (HttpImpl_AddOrUpdateBackend json_Marshal url_Parse tg backend) = None
   <-> exists request response,
         fst (HttpImpl_AddOrUpdateBackend json_Marshal url_Parse tg backend)
         = [request]
         /\ httpclient tg request = inr response
         /\ http.StatusCode response = 200%Z)
  /\ (snd (HttpImpl_DeleteBackend url_Parse tg name) = None
      <-> exists request response,
            fst (HttpImpl_DeleteBackend url_Parse tg name) = [request]
            /\ httpclient tg request = inr response
            /\ http.StatusCode response = 200%Z).
Proof.
  split; split.
  - unfold HttpImpl_AddOrUpdateBackend.
    destruct (json_Marshal backend); [discriminate|].
    destruct (http_NewRequest _ _ _ _) as [|request]; [discriminate|].
    cbv zeta. destruct (httpclient tg _) as [|response] eqn:Hanswer;
      [discriminate|].
    destruct (http.StatusCode response =? 200)%Z eqn:Hcode; [|discriminate].
    intros _. exists (addAuth tg request), response.
    repeat split; [exact Hanswer | now apply Z.eqb_eq].
  - intros (request & response & Hsent & Hanswer & Hcode).
    rewrite AddOrUpdateBackend_sent in Hsent.
    unfold HttpImpl_AddOrUpdateBackend. answered Hsent Hanswer.
    now rewrite Hcode.
  - unfold HttpImpl_DeleteBackend.
    destruct (http_NewRequest _ _ _ _) as [|request]; [discriminate|].
    cbv zeta. destruct (httpclient tg _) as [|response] eqn:Hanswer;
      [discriminate|].
    destruct (http.StatusCode response =? 200)%Z eqn:Hcode; [|discriminate].
    intros _. exists (addAuth tg request), response.
    repeat split; [exact Hanswer | now apply Z.eqb_eq].
  - intros (request & response & Hsent & Hanswer & Hcode).
    rewrite DeleteBackend_sent in Hsent.
    unfold HttpImpl_DeleteBackend. answered Hsent Hanswer.
    now rewrite Hcode.
Qed.

(** X4.  A failed exchange is reported with its cause: when the HTTP client
    answers the request of an operation with the transport error [e], the
    operation returns "cant send request: " followed by [e]. *)
Theorem transport_error_is_wrapped
  (tg : trinoGatewayClientHttpImpl) (request : http.Request) (e : string) :
  httpclient tg request = inl e ->
  (forall backend,
      fst (HttpImpl_AddOrUpdateBackend json_Marshal url_Parse tg backend)
      = [request] ->
      snd (HttpImpl_AddOrUpdateBackend json_Marshal url_Parse tg backend)
      = Some ("cant send request: " ++ e))
  /\ (forall name,
        fst (HttpImpl_DeleteBackend url_Parse tg name) = [request] ->
        snd (HttpImpl_DeleteBackend url_Parse tg name)
        = Some ("cant send request: " ++ e))
  /\ (fst (HttpImpl_GetAllBackends json_Unmarshal url_Parse tg) = [request] ->
      snd (HttpImpl_GetAllBackends json_Unmarshal url_Parse tg)
      = inl ("cant send request: " ++ e)).
Proof.
  intros Hanswer. split; [|split].
  - intros backend Hsent. rewrite AddOrUpdateBackend_sent in Hsent.
    unfold HttpImpl_AddOrUpdateBackend. answered Hsent Hanswer. reflexivity.
  - intros name Hsent. rewrite DeleteBackend_sent in Hsent.
    unfold HttpImpl_DeleteBackend. answered Hsent Hanswer. reflexivity.
  - intros Hsent. rewrite GetAllBackends_sent in Hsent.
    unfold HttpImpl_GetAllBackends. answered Hsent Hanswer. reflexivity.
Qed.

(** X5.  With an endpoint none of whose URLs parses, nothing reaches the network:
    each operation sends no request and returns "cant create request: "
    followed by the parse error of its URL. *)
Theorem unparsable_url_sends_nothing
  (tg : trinoGatewayClientHttpImpl) :
  (forall subpath, exists e, url_Parse (getFullUrl tg subpath) = Some e) ->
  (forall backend requestBody,
      json_Marshal backend = inr requestBody ->
      exists e,
        url_Parse (getFullUrl tg "/entity?entityType=GATEWAY_BACKEND") = Some e
        /\ HttpImpl_AddOrUpdateBackend json_Marshal url_Parse tg backend
           = ([], Some ("cant create request: " ++ e)))
  /\ (forall name,
        exists e,
          url_Parse (getFullUrl tg "/gateway/backend/modify/delete") = Some e
          /\ HttpImpl_DeleteBackend url_Parse tg name
             = ([], Some ("cant create request: " ++ e)))
  /\ (exists e,
        url_Parse (getFullUrl tg "/entity/GATEWAY_BACKEND") = Some e
        /\ HttpImpl_GetAllBackends json_Unmarshal url_Parse tg
           = ([], inl ("cant create request: " ++ e))).
Proof.
  intros Hbad. split; [|split].
  - intros backend requestBody Hbody.
    destruct (Hbad "/entity?entityType=GATEWAY_BACKEND") as [e He].
    exists e. split; [exact He|].
    unfold HttpImpl_AddOrUpdateBackend, http_NewRequest.
    now rewrite Hbody, He.
  - intros name.
    destruct (Hbad "/gateway/backend/modify/delete") as [e He].
    exists e. split; [exact He|].
    unfold HttpImpl_DeleteBackend, http_NewRequest. now rewrite He.
  - destruct (Hbad "/entity/GATEWAY_BACKEND") as [e He].
    exists e. split; [exact He|].
    unfold HttpImpl_GetAllBackends, http_NewRequest. now rewrite He.
Qed.

(** X6.  The requests of AddOrUpdateBackend and GetAllBackends: when the backend
    marshals to [requestBody] and the URL parses, the upsert is one POST to
    the endpoint's URL for /entity?entityType=GATEWAY_BACKEND with exactly
    [requestBody] as body; when its URL parses, the listing is one GET to
    the endpoint's URL for /entity/GATEWAY_BACKEND with no body.  Both carry
    the client's credentials, if any. *)
Theorem upsert_and_list_requests
  (tg : trinoGatewayClientHttpImpl) :
  let credentials :=
    match auth tg with
    | Some a => Some (Login a, Password a)
    | None => None
    end in
  (forall backend requestBody,
      json_Marshal backend = inr requestBody ->
      url_Parse (getFullUrl tg "/entity?entityType=GATEWAY_BACKEND") = None ->
      fst (HttpImpl_AddOrUpdateBackend json_Marshal url_Parse tg backend)
      = [ {| http.Method := "POST";
             http.URL :=
               strings.TrimSuffix (endpoint tg) "/"
                 ++ "/entity?entityType=GATEWAY_BACKEND";
             http.ReqBody := Some requestBody;
             http.BasicAuth := credentials |} ])
  /\ (url_Parse (getFullUrl tg "/entity/GATEWAY_BACKEND") = None ->
      fst (HttpImpl_GetAllBackends json_Unmarshal url_Parse tg)
      = [ {| http.Method := "GET";
             http.URL :=
               strings.TrimSuffix (endpoint tg) "/" ++ "/entity/GATEWAY_BACKEND";
             http.ReqBody := None;
             http.BasicAuth := credentials |} ]).
Proof.
  intros credentials. split.
  - intros backend requestBody Hbody Hurl.
    rewrite AddOrUpdateBackend_sent. unfold http_NewRequest.
    rewrite Hbody, Hurl. unfold addAuth, credentials, getFullUrl.
    now destruct (auth tg).
  - intros Hurl. rewrite GetAllBackends_sent. unfold http_NewRequest.
    rewrite Hurl. unfold addAuth, credentials, getFullUrl.
    now destruct (auth tg).
Qed.

(** X7.  GetAllBackends returns a list exactly when the request it sent was
    answered with status 200, the body was read to its end and the body
    decodes; the list is then the decoder's, entry for entry.  A list never
    comes from another status or from a body cut short. *)
Theorem list_returned_iff_200_decoded
  (tg : trinoGatewayClientHttpImpl) (backends : list (option Backend)) :
  snd (HttpImpl_GetAllBackends json_Unmarshal url_Parse tg) = inr backends
  <-> exists request body,
        fst (HttpImpl_GetAllBackends json_Unmarshal url_Parse tg) = [request]
        /\ httpclient tg request = inr (http.complete 200 body)
        /\ json_Unmarshal body = inr backends.
Proof.
  split.
  - unfold HttpImpl_GetAllBackends.
    destruct (http_NewRequest _ _ _ _) as [|request]; [discriminate|].
    cbv zeta.
    destruct (httpclient tg _) as [|[code [body readErr]]] eqn:Hanswer;
      [discriminate|].
    simpl. destruct readErr; [discriminate|].
    destruct (code =? 200)%Z eqn:Hcode; [|discriminate]. simpl.
    destruct (json_Unmarshal body) eqn:Hdecode; [discriminate|].
    intros [= <-]. exists (addAuth tg request), body.
    apply Z.eqb_eq in Hcode. subst code. now repeat split.
  - intros (request & body & Hsent & Hanswer & Hdecode).
    rewrite GetAllBackends_sent in Hsent.
    unfold HttpImpl_GetAllBackends. answered Hsent Hanswer.
    now rewrite Hdecode.
Qed.

(** X8.  A list response whose body cannot be read to its end is an error of
    its own: whatever the status code (200 included) and whatever bytes did
    arrive, GetAllBackends returns "cant read response body", without the
    status code, the bytes or the cause of the failure. *)
Theorem list_read_failure_is_reported
  (tg : trinoGatewayClientHttpImpl) (request : http.Request)
  (code : Z) (body readErr : string) :
  fst (HttpImpl_GetAllBackends json_Unmarshal url_Parse tg) = [request] ->
  httpclient tg request
  = inr {| http.StatusCode := code;
           http.Body := {| http.data := body; http.err := Some readErr |} |} ->
  snd (HttpImpl_GetAllBackends json_Unmarshal url_Parse tg)
  = inl "cant read response body".
Proof.
  intros Hsent Hanswer. rewrite GetAllBackends_sent in Hsent.
  unfold HttpImpl_GetAllBackends. answered Hsent Hanswer. reflexivity.
Qed.

(** X9.  [getFullUrl] removes one "/" and no more: for every [e], the endpoint
    [e ++ "/"] gives [e ++ subpath], so an endpoint written with two
    trailing slashes keeps one of them in the URL. *)
Theorem getFullUrl_strips_one_slash
  (httpclient : http.Client) (auth : option Auth) (e subpath : string) :
  getFullUrl {| httpclient := httpclient; auth := auth; endpoint := e ++ "/" |}
    subpath = e ++ subpath
  /\ getFullUrl
       {| httpclient := httpclient; auth := auth; endpoint := e ++ "//" |}
       subpath = e ++ "/" ++ subpath.
Proof.
  split; [apply getFullUrl_slash|].
  replace (e ++ "//") with ((e ++ "/") ++ "/")
    by (rewrite append_assoc; reflexivity).
  rewrite getFullUrl_slash. now rewrite append_assoc.
Qed.

End ClientCoverage.

(** * Further properties of the backend resource *)

Section ResourceCoverage.

Context {C : Type} `{TrinoGatewayClient C}.

(** X10.  When the plan or the prior state cannot be read (the diagnostics hold
    an error once those of reading it are appended), Create, Read, Update and
    Delete return at once: no call goes to the client, the state is left as
    it was and only the diagnostics of the reading are added. *)
Theorem operations_stop_on_unreadable_source
  (r : provider.BackendResource) (req : provider.Request)
  (resp : provider.Response)
  (diags : diag.Diagnostics) (data : provider.BackendResourceModel) :
  tfsdk.Get (provider.Source req) = (diags, data) ->
  diag.HasError (diag.Append (provider.Diagnostics resp) diags) = true ->
  let stopped :=
    {| provider.Diagnostics := diag.Append (provider.Diagnostics resp) diags;
       provider.State := provider.State resp |} in
  provider.Create r req resp = ([], stopped)
  /\ provider.Read r req resp = ([], Returned stopped)
  /\ provider.Update r req resp = ([], stopped)
  /\ provider.Delete r req resp = ([], stopped).
Proof.
  intros HGet Herr stopped.
  unfold provider.Create, provider.Read, provider.Update, provider.Delete.
  rewrite HGet. cbv zeta.
  change (provider.Diagnostics (provider.appendDiagnostics resp diags))
    with (diag.Append (provider.Diagnostics resp) diags).
  rewrite Herr. now repeat split.
Qed.

(** X11.  A refused upsert leaves the state alone: when the call that Create
    makes to AddOrUpdateBackend fails with [e], Create and Update return
    with the state unchanged and with the error diagnostic "Client Error"
    whose detail is "Unable to add backend, got error: " (for Update
    "Unable to update backend, got error: ") followed by [e]. *)
Theorem refused_upsert_keeps_state
  (r : provider.BackendResource) (req : provider.Request)
  (resp : provider.Response)
  (diags : diag.Diagnostics) (data : provider.BackendResourceModel)
  (e : string) :
  tfsdk.Get (provider.Source req) = (diags, data) ->
  diag.HasError (diag.Append (provider.Diagnostics resp) diags) = false ->
  (forall backend,
      In (provider.CallAddOrUpdateBackend backend)
        (fst (provider.Create r req resp)) ->
      AddOrUpdateBackend (provider.client r) backend = Some e) ->
  let diagnostics := diag.Append (provider.Diagnostics resp) diags in
  snd (provider.Create r req resp)
  = {| provider.Diagnostics :=
         diag.AddError diagnostics "Client Error"
           ("Unable to add backend, got error: " ++ e);
       provider.State := provider.State resp |}
  /\ snd (provider.Update r req resp)
     = {| provider.Diagnostics :=
            diag.AddError diagnostics "Client Error"
              ("Unable to update backend, got error: " ++ e);
          provider.State := provider.State resp |}
  /\ diag.HasError (provider.Diagnostics (snd (provider.Create r req resp)))
     = true
  /\ diag.HasError (provider.Diagnostics (snd (provider.Update r req resp)))
     = true.
Proof.
  intros HGet Hclean Hrefused diagnostics. revert Hrefused.
  unfold provider.Create, provider.Update.
  rewrite HGet. cbv zeta.
  change (provider.Diagnostics (provider.appendDiagnostics resp diags))
    with (diag.Append (provider.Diagnostics resp) diags).
  rewrite Hclean.
  match goal with
  | |- context [AddOrUpdateBackend (provider.client r) ?b] =>
      set (sent := b); intros Hrefused;
      assert (Hcall : AddOrUpdateBackend (provider.client r) sent = Some e)
  end.
  { apply Hrefused. destruct (AddOrUpdateBackend _ sent); now left. }
  rewrite Hcall. unfold provider.addError. simpl.
  repeat split; apply HasError_AddError.
Qed.

(** X12.  A failed listing removes nothing: when GetAllBackends fails with [e],
    Read returns with the state as it was (the resource is not removed) and
    ImportState returns without a state change, each with the error
    diagnostic "Client Error" whose detail is
    "Unable to list backends, got error: " followed by [e]. *)
Theorem failed_listing_keeps_state
  (r : provider.BackendResource) (req : provider.Request)
  (importReq : provider.ImportStateRequest) (resp : provider.Response)
  (diags : diag.Diagnostics) (data : provider.BackendResourceModel)
  (e : string) :
  tfsdk.Get (provider.Source req) = (diags, data) ->
  diag.HasError (diag.Append (provider.Diagnostics resp) diags) = false ->
  GetAllBackends (provider.client r) = inl e ->
  provider.Read r req resp
  = ([provider.CallGetAllBackends],
     Returned
       {| provider.Diagnostics :=
            diag.AddError (diag.Append (provider.Diagnostics resp) diags)
              "Client Error" ("Unable to list backends, got error: " ++ e);
          provider.State := provider.State resp |})
  /\ provider.ImportState r importReq resp
     = ([provider.CallGetAllBackends],
        Returned
          {| provider.Diagnostics :=
               diag.AddError (provider.Diagnostics resp)
                 "Client Error" ("Unable to list backends, got error: " ++ e);
             provider.State := provider.State resp |}).
Proof.
  intros HGet Hclean Hlist.
  unfold provider.Read, provider.ImportState.
  rewrite HGet. cbv zeta.
  change (provider.Diagnostics (provider.appendDiagnostics resp diags))
    with (diag.Append (provider.Diagnostics resp) diags).
  rewrite Hclean, Hlist. now split.
Qed.

(** X13.  ImportState returns exactly when no entry of the listed slice is
    nil and some entry has the identifier as its name.  When it returns, it
    has added no diagnostic and the state holds the five attributes of the
    last entry of that name, while [id] is left null. *)
Theorem ImportState_returns_iff_listed
  (r : provider.BackendResource) (req : provider.ImportStateRequest)
  (resp : provider.Response) (backends : list (option Backend)) :
  GetAllBackends (provider.client r) = inr backends ->
  ((exists resp', snd (provider.ImportState r req resp) = Returned resp')
   <-> ~ In None backends
       /\ exists b, In (Some b) backends /\ Name b = provider.ID req)
  /\ (forall resp',
        snd (provider.ImportState r req resp) = Returned resp' ->
        provider.Diagnostics resp' = provider.Diagnostics resp
        /\ exists records found,
            backends = map Some records
            /\ lastMatching (provider.ID req) records = Some found
            /\ provider.State resp'
               = Some {| provider.Id := types.StringNull;
                         provider.Name := types.StringValue (Name found);
                         provider.ProxyTo := types.StringValue (ProxyTo found);
                         provider.Active := types.BoolValue (Active found);
                         provider.RoutingGroup :=
                           types.StringValue (RoutingGroup found);
                         provider.ExternalUrl :=
                           types.StringValue (ExternalUrl found) |}).
Proof.
  intros Hlist.
  rewrite (ImportState_listed r req resp backends Hlist). simpl snd.
  destruct (provider.rangeBackends (provider.ID req) backends None)
    as [[found|]|reason f] eqn:Hscan.
  - pose proof (rangeBackends_returned _ _ _ _ Hscan) as Hnone.
    destruct (no_nil_entry_records backends Hnone) as [records ->].
    rewrite rangeBackends_lastMatching in Hscan.
    injection Hscan as Hlast.
    destruct (lastMatching (provider.ID req) records) as [x|] eqn:Hx;
      [injection Hlast as -> | discriminate Hlast].
    destruct (lastMatching_found _ _ _ Hx) as [Hin Hname].
    split.
    + split; [|intros _; eexists; reflexivity].
      intros _. split; [exact Hnone|]. exists found.
      split; [now apply In_Some_map | exact Hname].
    + intros resp' [= <-]. split; [reflexivity|].
      exists records, found. now repeat split.
  - pose proof (rangeBackends_returned _ _ _ _ Hscan) as Hnone.
    destruct (no_nil_entry_records backends Hnone) as [records ->].
    rewrite rangeBackends_lastMatching in Hscan.
    injection Hscan as Hlast.
    split.
    + split; [intros [resp' Habs]; discriminate Habs|].
      intros [_ [b [Hb Hname]]].
      destruct (lastMatching_present (provider.ID req) records) as [x Hx].
      { exists b. split; [now apply In_Some_map | exact Hname]. }
      rewrite Hx in Hlast. discriminate Hlast.
    + intros resp' Habs. discriminate Habs.
  - split.
    + split; [intros [resp' Habs]; discriminate Habs|].
      intros [Hnone _]. exfalso.
      destruct (no_nil_entry_records backends Hnone) as [records ->].
      rewrite rangeBackends_lastMatching in Hscan. discriminate Hscan.
    + intros resp' Habs. discriminate Habs.
Qed.

(** X14.  Delete asks the client to delete the tracked name and nothing else: one
    call, DeleteBackend with the name of the prior state.  The state of the
    response is never touched; a refusal [e] becomes the error diagnostic
    "Client Error" with detail "Unable to delete backend, got error: "
    followed by [e], and a success adds no diagnostic. *)
Theorem Delete_deletes_tracked_name
  (r : provider.BackendResource) (req : provider.Request)
  (resp : provider.Response)
  (diags : diag.Diagnostics) (data : provider.BackendResourceModel) :
  tfsdk.Get (provider.Source req) = (diags, data) ->
  diag.HasError (diag.Append (provider.Diagnostics resp) diags) = false ->
  let name := types.ValueString (provider.Name data) in
  let diagnostics := diag.Append (provider.Diagnostics resp) diags in
  fst (provider.Delete r req resp) = [provider.CallDeleteBackend name]
  /\ provider.State (snd (provider.Delete r req resp)) = provider.State resp
  /\ provider.Diagnostics (snd (provider.Delete r req resp))
     = match DeleteBackend (provider.client r) name with
       | Some e =>
           diag.AddError diagnostics "Client Error"
             ("Unable to delete backend, got error: " ++ e)
       | None => diagnostics
       end.
Proof.
  intros HGet Hclean name diagnostics.
  unfold provider.Delete. rewrite HGet. cbv zeta.
  change (provider.Diagnostics (provider.appendDiagnostics resp diags))
    with (diag.Append (provider.Diagnostics resp) diags).
  rewrite Hclean. fold name.
  now destruct (DeleteBackend (provider.client r) name).
Qed.

End ResourceCoverage.

(** * How the operations compose *)

Section Composition.

Context {C : Type} `{TrinoGatewayClient C}.

(** X15.  Create followed by Read is stable.  Take a plan whose name,
    proxy_to, active and routing_group are known values and whose upsert
    [sent] the client accepts.  If the gateway then lists [sent] as the last
    entry of its name, in a slice none of whose entries is nil, a Read of
    the state that Create stored returns that very response again: same
    state, [id] and defaulted [external_url] included, and no new
    diagnostic. *)
Theorem Create_then_Read_is_stable
  (r : provider.BackendResource) (resp : provider.Response)
  (id externalUrl : types.String) (name proxyTo routingGroup : string)
  (active : bool) (sent : Backend) (before after : list Backend) :
  let plan :=
    {| provider.Id := id;
       provider.Name := types.StringValue name;
       provider.ProxyTo := types.StringValue proxyTo;
       provider.Active := types.BoolValue active;
       provider.RoutingGroup := types.StringValue routingGroup;
       provider.ExternalUrl := externalUrl |} in
  let req := {| provider.Source := {| tfsdk.Get := ([], plan) |} |} in
  diag.HasError (provider.Diagnostics resp) = false ->
  fst (provider.Create r req resp) = [provider.CallAddOrUpdateBackend sent] ->
  AddOrUpdateBackend (provider.client r) sent = None ->
  GetAllBackends (provider.client r)
  = inr (map Some (before ++ sent :: after)%list) ->
  (forall b, In b after -> Name b <> name) ->
  exists stored,
    provider.State (snd (provider.Create r req resp)) = Some stored
    /\ snd (provider.Read r
              {| provider.Source := {| tfsdk.Get := ([], stored) |} |}
              (snd (provider.Create r req resp)))
       = Returned (snd (provider.Create r req resp)).
Proof.
  intros plan req Hclean Hsent Haccept Hlist Hafter.
  assert (Hcreate :
            exists stored,
              snd (provider.Create r req resp)
              = {| provider.Diagnostics := provider.Diagnostics resp;
                   provider.State := Some stored |}
              /\ provider.Name stored = types.StringValue (Name sent)
              /\ provider.ProxyTo stored = types.StringValue (ProxyTo sent)
              /\ provider.Active stored = types.BoolValue (Active sent)
              /\ provider.RoutingGroup stored
                 = types.StringValue (RoutingGroup sent)
              /\ provider.ExternalUrl stored
                 = types.StringValue (ExternalUrl sent)
              /\ Name sent = name).
  { revert Hsent. unfold provider.Create. simpl tfsdk.Get. cbv zeta.
    unfold provider.appendDiagnostics at 1. simpl provider.Diagnostics.
    rewrite Hclean.
    match goal with
    | |- context [AddOrUpdateBackend (provider.client r) ?b] =>
        set (entity := b)
    end.
    intros Hsent.
    assert (Hentity : entity = sent).
    { destruct (AddOrUpdateBackend _ entity); simpl in Hsent; congruence. }
    rewrite Hentity, Haccept. simpl snd. rewrite <- Hentity.
    unfold provider.setState, provider.appendDiagnostics, entity, plan. simpl.
    destruct externalUrl; simpl; eexists; (split; [reflexivity|]);
      now repeat split. }
  destruct Hcreate
    as (stored & Hcreate & Hn & Hp & Ha & Hg & He & Hname).
  rewrite Hcreate. exists stored. split; [reflexivity|].
  erewrite Read_listed; [ | reflexivity | exact Hclean | exact Hlist ].
  rewrite rangeBackends_lastMatching, Hn.
  cbn [types.ValueString].
  rewrite lastMatching_final.
  - simpl provider.Diagnostics. rewrite Append_nil.
    rewrite <- Hn, <- Hp, <- Ha, <- Hg, <- He. now destruct stored.
  - reflexivity.
  - intros b Hb. rewrite Hname. now apply Hafter.
Qed.

(** X16.  Read followed by Update sends back what was read.  When Read has
    refreshed the state from the listed entry [found], an Update planned
    with exactly that state calls AddOrUpdateBackend with [found] itself:
    turning a backend into the tracked attributes and back loses nothing. *)
Theorem Read_then_Update_resends_found
  (r : provider.BackendResource) (req : provider.Request)
  (resp read resp' : provider.Response)
  (diags : diag.Diagnostics) (data refreshed : provider.BackendResourceModel)
  (backends : list (option Backend)) :
  tfsdk.Get (provider.Source req) = (diags, data) ->
  diag.HasError (diag.Append (provider.Diagnostics resp) diags) = false ->
  GetAllBackends (provider.client r) = inr backends ->
  snd (provider.Read r req resp) = Returned read ->
  provider.State read = Some refreshed ->
  diag.HasError (provider.Diagnostics resp') = false ->
  exists records found,
    backends = map Some records
    /\ lastMatching (types.ValueString (provider.Name data)) records
       = Some found
    /\ fst (provider.Update r
              {| provider.Source := {| tfsdk.Get := ([], refreshed) |} |} resp')
       = [provider.CallAddOrUpdateBackend found].
Proof.
  intros HGet Hclean Hlist Hread Hstate Hclean'.
  rewrite (Read_listed r req resp diags data backends HGet Hclean Hlist)
    in Hread.
  simpl in Hread.
  destruct (provider.rangeBackends _ backends None) as [foundBackend|]
    eqn:Hscan; [|discriminate Hread].
  injection Hread as <-. simpl in Hstate.
  pose proof (rangeBackends_returned _ _ _ _ Hscan) as Hnone.
  destruct (no_nil_entry_records backends Hnone) as [records ->].
  rewrite rangeBackends_lastMatching in Hscan. injection Hscan as Hlast.
  destruct foundBackend as [found|]; [|discriminate Hstate].
  injection Hstate as <-.
  exists records, found. split; [reflexivity|]. split.
  - destruct (lastMatching _ records); [exact Hlast | discriminate Hlast].
  - unfold provider.Update. simpl tfsdk.Get. cbv zeta.
    unfold provider.appendDiagnostics at 1. simpl provider.Diagnostics.
    rewrite Hclean'. simpl.
    destruct found. simpl.
    now destruct (AddOrUpdateBackend _ _).
Qed.

End Composition.

(** * The resource over the HTTP client *)

Section OverHttp.

Variable json_Marshal : Backend -> string + string.
Variable json_Unmarshal : string -> string + list (option Backend).
Variable url_Parse : string -> option string.

(** What the three operations return when every backend marshals, every
    URL of the endpoint parses and the server gives one answer to every
    request. *)
Lemma AddOrUpdateBackend_answered (tg : trinoGatewayClientHttpImpl)
  (response : http.Response) (backend : Backend) :
  (forall backend, exists requestBody, json_Marshal backend = inr requestBody) ->
  (forall subpath, url_Parse (getFullUrl tg subpath) = None) ->
  (forall request, httpclient tg request = inr response) ->
  snd (HttpImpl_AddOrUpdateBackend json_Marshal url_Parse tg backend)
  = if negb (http.StatusCode response =? 200)%Z
    then Some (badResponse (http.StatusCode response)
                 (http.data (http.Body response)))
    else None.
Proof.
  intros Hmarshal Hurl Hanswer.
  unfold HttpImpl_AddOrUpdateBackend, http_NewRequest.
  destruct (Hmarshal backend) as [requestBody ->].
  rewrite Hurl. cbv zeta. rewrite Hanswer.
  now destruct (negb _).
Qed.

Lemma DeleteBackend_answered (tg : trinoGatewayClientHttpImpl)
  (response : http.Response) (name : string) :
  (forall subpath, url_Parse (getFullUrl tg subpath) = None) ->
  (forall request, httpclient tg request = inr response) ->
  snd (HttpImpl_DeleteBackend url_Parse tg name)
  = if negb (http.StatusCode response =? 200)%Z
    then Some (badResponse (http.StatusCode response)
                 (http.data (http.Body response)))
    else None.
Proof.
  intros Hurl Hanswer.
  unfold HttpImpl_DeleteBackend, http_NewRequest.
  rewrite Hurl. cbv zeta. rewrite Hanswer.
  now destruct (negb _).
Qed.

Lemma GetAllBackends_answered (tg : trinoGatewayClientHttpImpl)
  (body : string) :
  (forall subpath, url_Parse (getFullUrl tg subpath) = None) ->
  (forall request, httpclient tg request = inr (http.complete 200 body)) ->
  snd (HttpImpl_GetAllBackends json_Unmarshal url_Parse tg)
  = match json_Unmarshal body with
    | inl e =>
        inl ("cant unmarshal response: " ++ e ++ ", body: "
               ++ slice_to body
                    (Nat.min (String.length body) maxResponseBodyLogSize))
    | inr backends => inr backends
    end.
Proof.
  intros Hurl Hanswer.
  unfold HttpImpl_GetAllBackends, http_NewRequest.
  rewrite Hurl. cbv zeta. rewrite Hanswer. simpl.
  now destruct (json_Unmarshal body).
Qed.

(** X17.  A refusal of the gateway reaches the user word for word.  With the
    HTTP client behind the resource and a gateway that answers every request
    with a status other than 200, Create, Update and Delete leave the state
    as it was and add the error diagnostic "Client Error" whose detail ends
    in the client's message
    "bad http response code: <code>, body: <excerpt>". *)
Theorem gateway_refusal_reaches_diagnostics
  (tg : trinoGatewayClientHttpImpl) (req : provider.Request)
  (resp : provider.Response)
  (diags : diag.Diagnostics) (data : provider.BackendResourceModel)
  (code : Z) (body : string) (readErr : option string) :
  tfsdk.Get (provider.Source req) = (diags, data) ->
  diag.HasError (diag.Append (provider.Diagnostics resp) diags) = false ->
  (forall backend, exists requestBody, json_Marshal backend = inr requestBody) ->
  (forall subpath, url_Parse (getFullUrl tg subpath) = None) ->
  code <> 200%Z ->
  (forall request,
      httpclient tg request
      = inr {| http.StatusCode := code;
               http.Body := {| http.data := body; http.err := readErr |} |}) ->
  let r := {| provider.client := tg |} in
  let over :=
    trinoGatewayClientHttpImpl_client json_Marshal json_Unmarshal url_Parse in
  let refused action :=
    {| provider.Diagnostics :=
         diag.AddError (diag.Append (provider.Diagnostics resp) diags)
           "Client Error"
           ("Unable to " ++ action ++ " backend, got error: "
              ++ "bad http response code: " ++ fmt.d code ++ ", body: "
              ++ slice_to body
                   (Nat.min (String.length body) maxResponseBodyLogSize));
       provider.State := provider.State resp |} in
  snd (provider.Create (H := over) r req resp) = refused "add"
  /\ snd (provider.Update (H := over) r req resp) = refused "update"
  /\ snd (provider.Delete (H := over) r req resp) = refused "delete".
Proof.
  intros HGet Hclean Hmarshal Hurl Hcode Hanswer r over refused.
  assert (Hneg : negb (code =? 200)%Z = true)
    by (apply negb_true_iff, Z.eqb_neq, Hcode).
  unfold provider.Create, provider.Update, provider.Delete.
  rewrite HGet. cbv zeta.
  change (provider.Diagnostics (provider.appendDiagnostics resp diags))
    with (diag.Append (provider.Diagnostics resp) diags).
  rewrite Hclean.
  unfold r, over, AddOrUpdateBackend, DeleteBackend,
    trinoGatewayClientHttpImpl_client. cbn [provider.client].
  rewrite !(AddOrUpdateBackend_answered tg _ _ Hmarshal Hurl Hanswer).
  rewrite (DeleteBackend_answered tg _ _ Hurl Hanswer).
  cbn [http.StatusCode http.Body http.data]. rewrite Hneg.
  now repeat split.
Qed.

(** X18.  A gateway that no longer lists the backend makes Read drop it,
    unless the list holds a nil entry.  With the HTTP client behind the
    resource and a gateway that answers with status 200 and a body that
    decodes to a slice in which no backend has the tracked name: when no
    entry of the slice is nil, Read returns with the state removed and adds
    no diagnostic; when an entry is nil (as for the body [[null]]), Read
    panics and the state is not removed. *)
Theorem Read_over_http_drops_unlisted
  (tg : trinoGatewayClientHttpImpl) (req : provider.Request)
  (resp : provider.Response)
  (diags : diag.Diagnostics) (data : provider.BackendResourceModel)
  (body : string) (backends : list (option Backend)) :
  tfsdk.Get (provider.Source req) = (diags, data) ->
  diag.HasError (diag.Append (provider.Diagnostics resp) diags) = false ->
  (forall subpath, url_Parse (getFullUrl tg subpath) = None) ->
  (forall request, httpclient tg request = inr (http.complete 200 body)) ->
  json_Unmarshal body = inr backends ->
  (forall b,
      In (Some b) backends ->
      Name b <> types.ValueString (provider.Name data)) ->
  let read :=
    snd (provider.Read
           (H := trinoGatewayClientHttpImpl_client json_Marshal json_Unmarshal
                   url_Parse)
           {| provider.client := tg |} req resp) in
  (~ In None backends ->
   read
   = Returned
       {| provider.Diagnostics := diag.Append (provider.Diagnostics resp) diags;
          provider.State := None |})
  /\ (In None backends ->
      read
      = Panicked nilDereference
          {| provider.Diagnostics :=
               diag.Append (provider.Diagnostics resp) diags;
             provider.State := provider.State resp |}).
Proof.
  intros HGet Hclean Hurl Hanswer Hdecode Habsent read. unfold read.
  rewrite (Read_listed _ req resp diags data backends HGet Hclean).
  - split.
    + intros Hnone. destruct (no_nil_entry_records backends Hnone)
        as [records ->].
      rewrite rangeBackends_lastMatching, lastMatching_absent; [reflexivity|].
      intros b Hb. apply Habsent. now apply In_Some_map.
    + intros Hnil.
      destruct (rangeBackends_nil_entry
                  (types.ValueString (provider.Name data)) backends None Hnil)
        as [found ->].
      reflexivity.
  - unfold GetAllBackends, trinoGatewayClientHttpImpl_client.
    cbn [provider.client].
    now rewrite (GetAllBackends_answered tg body Hurl Hanswer), Hdecode.
Qed.

End OverHttp.

(** * Further properties of the provider configuration *)

Section ProviderCoverage.

Variable http_DefaultClient : http.Client.

(** X19.  Configure either fails or configures, never half of each: either the
    diagnostics it returns hold an error and [DataSourceData] and
    [ResourceData] are as they were, or they hold no error and both fields
    are set to one and the same client, built on the default HTTP client
    with the endpoint value of the configuration. *)
Theorem Configure_fails_or_stores_client
  (req : provider.ConfigureRequest) (resp : provider.ConfigureResponse) :
  let out := provider.Configure http_DefaultClient req resp in
  (diag.HasError (provider.ConfigureDiagnostics out) = true
   /\ provider.DataSourceData out = provider.DataSourceData resp
   /\ provider.ResourceData out = provider.ResourceData resp)
  \/ (diag.HasError (provider.ConfigureDiagnostics out) = false
      /\ exists auth,
          let client :=
            {| httpclient := http_DefaultClient; auth := auth;
               endpoint :=
                 types.ValueString
                   (provider.Endpoint (snd (tfsdk.Get (provider.Config req)))) |}
          in
          provider.DataSourceData out = Some client
          /\ provider.ResourceData out = Some client).
Proof.
  unfold provider.Configure.
  destruct (tfsdk.Get (provider.Config req)) as [diags data]. cbv zeta.
  cbn [provider.ConfigureDiagnostics provider.DataSourceData
         provider.ResourceData snd].
  destruct (diag.HasError (diag.Append _ diags)) eqn:Hclean.
  - left. now repeat split.
  - destruct (types.IsNull (provider.Endpoint data)).
    + left. repeat split. apply HasError_AddError.
    + destruct (types.IsNull (provider.Login data)); simpl.
      * right. split; [exact Hclean|]. now exists None.
      * destruct (types.IsNull (provider.Password data)); simpl.
        -- left. repeat split. apply HasError_AddError.
        -- right. split; [exact Hclean|]. eexists. now split.
Qed.

(** X20.  A configuration without an endpoint is refused before the credentials
    are looked at: whatever login and password are, Configure adds the one
    error "Endpoint for trino gateway client is not specify" and stores no
    client. *)
Theorem Configure_requires_endpoint
  (req : provider.ConfigureRequest) (resp : provider.ConfigureResponse)
  (diags : diag.Diagnostics) (data : provider.TrinoGatewayProviderModel) :
  tfsdk.Get (provider.Config req) = (diags, data) ->
  diag.HasError (diag.Append (provider.ConfigureDiagnostics resp) diags)
  = false ->
  types.IsNull (provider.Endpoint data) = true ->
  provider.Configure http_DefaultClient req resp
  = {| provider.ConfigureDiagnostics :=
         diag.AddError
           (diag.Append (provider.ConfigureDiagnostics resp) diags)
           "Endpoint for trino gateway client is not specify"
           "Cant configure trino gateway client: endpoint is not specified";
       provider.DataSourceData := provider.DataSourceData resp;
       provider.ResourceData := provider.ResourceData resp |}.
Proof.
  intros HGet Hclean Hendpoint.
  unfold provider.Configure. rewrite HGet. cbv zeta.
  cbn [provider.ConfigureDiagnostics provider.DataSourceData
         provider.ResourceData].
  now rewrite Hclean, Hendpoint.
Qed.

End ProviderCoverage.

(** * From the provider to the resource *)

Section HandOver.

Variable http_DefaultClient : http.Client.

(** X21.  The client that the provider configures is the client the resource
    ends up with.  When Configure of the provider returns without an error,
    Configure of the resource, given the provider's [ResourceData], adds no
    diagnostic and sets the resource's client to the provider's: the HTTP
    client on the configured endpoint.  Given nil data (the provider is not
    configured yet) it changes nothing and reports nothing; given a value
    of another type it keeps the client and reports one error that names
    the type. *)
Theorem provider_client_reaches_resource
  (req : provider.ConfigureRequest) (resp : provider.ConfigureResponse)
  (before : option trinoGatewayClientHttpImpl)
  (diagnostics : diag.Diagnostics) :
  let out := provider.Configure http_DefaultClient req resp in
  (diag.HasError (provider.ConfigureDiagnostics out) = false ->
   exists client,
     provider.ResourceData out = Some client
     /\ httpclient client = http_DefaultClient
     /\ endpoint client
        = types.ValueString
            (provider.Endpoint (snd (tfsdk.Get (provider.Config req))))
     /\ BackendResource_Configure before
          (handedOver (provider.ResourceData out)) diagnostics
        = (Some client, diagnostics))
  /\ BackendResource_Configure before ProviderDataNil diagnostics
     = (before, diagnostics)
  /\ (forall typeName,
        fst (BackendResource_Configure before (ProviderDataOther typeName)
               diagnostics) = before
        /\ diag.HasError
             (snd (BackendResource_Configure before
                     (ProviderDataOther typeName) diagnostics)) = true).
Proof.
  intros out. split; [|split].
  - unfold out, provider.Configure.
    destruct (tfsdk.Get (provider.Config req)) as [diags data]. cbv zeta.
    cbn [provider.ConfigureDiagnostics provider.DataSourceData
           provider.ResourceData snd].
    destruct (diag.HasError (diag.Append _ diags)) eqn:Hclean.
    + cbn [provider.ConfigureDiagnostics]. congruence.
    + destruct (types.IsNull (provider.Endpoint data)).
      * cbn [provider.ConfigureDiagnostics]. rewrite HasError_AddError.
        discriminate.
      * destruct (types.IsNull (provider.Login data)); simpl.
        -- intros _. eexists. now repeat split.
        -- destruct (types.IsNull (provider.Password data)); simpl.
           ++ rewrite HasError_AddError. discriminate.
           ++ intros _. eexists. now repeat split.
  - reflexivity.
  - intros typeName. split; [reflexivity|]. apply HasError_AddError.
Qed.

End HandOver.

(** * The further properties on examples *)

(** The example client with login and password "admin". *)
Lemma client_requests_carry_credentials_witness :
  let tg := exampleClientWithAuth (inl "connection refused") in
  auth tg = Some {| Login := "admin"; Password := "admin" |}
  /\ fst (HttpImpl_DeleteBackend standin.url_Parse tg "trino-1")
     = [authorizedDelete]
  /\ Forall (fun request => http.BasicAuth request = Some ("admin", "admin"))
       (fst (HttpImpl_AddOrUpdateBackend standin.json_Marshal standin.url_Parse
               tg exampleBackend)
        ++ fst (HttpImpl_DeleteBackend standin.url_Parse tg "trino-1")
        ++ fst (HttpImpl_GetAllBackends standin.json_Unmarshal
                  standin.url_Parse tg))%list.
Proof.
  intros tg.
  split; [reflexivity|]. split; [reflexivity|].
  exact (client_requests_carry_credentials standin.json_Marshal
           standin.json_Unmarshal standin.url_Parse tg
           {| Login := "admin"; Password := "admin" |}
           exampleBackend "trino-1" eq_refl).
Defined.

(** A gateway that refuses the connection. *)
Lemma transport_error_is_wrapped_witness :
  let tg := exampleClientWithAuth (inl "connection refused") in
  httpclient tg authorizedDelete = inl "connection refused"
  /\ fst (HttpImpl_DeleteBackend standin.url_Parse tg "trino-1")
     = [authorizedDelete]
  /\ snd (HttpImpl_DeleteBackend standin.url_Parse tg "trino-1")
     = Some "cant send request: connection refused".
Proof.
  intros tg.
  split; [reflexivity|]. split; [reflexivity|].
  exact (proj1 (proj2 (transport_error_is_wrapped standin.json_Marshal
                         standin.json_Unmarshal standin.url_Parse tg
                         authorizedDelete "connection refused" eq_refl))
           "trino-1" eq_refl).
Defined.

(** An endpoint that does not parse. *)
Lemma unparsable_url_sends_nothing_witness :
  let tg := exampleClient (http.complete 200 "[]") in
  (forall subpath, exists e, rejectingParse (getFullUrl tg subpath) = Some e)
  /\ HttpImpl_DeleteBackend rejectingParse tg "trino-1"
     = ([], Some "cant create request: parse http://127.0.0.1:18080/gateway/backend/modify/delete: invalid URL escape").
Proof.
  intros tg.
  assert (Hbad : forall subpath,
             exists e, rejectingParse (getFullUrl tg subpath) = Some e).
  { intros subpath. eexists. reflexivity. }
  split; [exact Hbad|].
  pose proof (proj1 (proj2 (unparsable_url_sends_nothing standin.json_Marshal
                              standin.json_Unmarshal rejectingParse tg Hbad))
                "trino-1") as Hdelete.
  reflexivity.
Defined.

(** The upsert and the listing of the example client. *)
Lemma upsert_and_list_requests_witness :
  let tg := exampleClient (http.complete 200 "[]") in
  fst (HttpImpl_GetAllBackends standin.json_Unmarshal standin.url_Parse tg)
  = [listRequest]
  /\ exists requestBody,
      standin.json_Marshal exampleBackend = inr requestBody
      /\ fst (HttpImpl_AddOrUpdateBackend standin.json_Marshal
                standin.url_Parse tg exampleBackend)
         = [ {| http.Method := "POST";
                http.URL :=
                  "http://127.0.0.1:18080/entity?entityType=GATEWAY_BACKEND";
                http.ReqBody := Some requestBody;
                http.BasicAuth := None |} ].
Proof.
  intros tg.
  pose proof (upsert_and_list_requests standin.json_Marshal
                standin.json_Unmarshal standin.url_Parse tg)
    as [Hupsert Hlist].
  split; [exact (Hlist eq_refl)|].
  eexists. split; [reflexivity|].
  exact (Hupsert exampleBackend _ eq_refl eq_refl).
Defined.

(** A 200 list response that breaks off after its first bytes. *)
Lemma list_read_failure_is_reported_witness :
  let answer :=
    {| http.StatusCode := 200;
       http.Body := {| http.data := "[";
                       http.err := Some "unexpected EOF" |} |} in
  let tg := exampleClient answer in
  fst (HttpImpl_GetAllBackends standin.json_Unmarshal standin.url_Parse tg)
  = [listRequest]
  /\ httpclient tg listRequest = inr answer
  /\ snd (HttpImpl_GetAllBackends standin.json_Unmarshal standin.url_Parse tg)
     = inl "cant read response body".
Proof.
  intros answer tg.
  split; [reflexivity|]. split; [reflexivity|].
  exact (list_read_failure_is_reported standin.json_Unmarshal standin.url_Parse
           tg listRequest 200 "[" "unexpected EOF" eq_refl eq_refl).
Defined.

(** An undecodable plan: nothing is asked of the client. *)
Lemma operations_stop_on_unreadable_source_witness :
  let r := resourceOver [] in
  tfsdk.Get (provider.Source unreadable)
  = ([diag.NewErrorDiagnostic "Value Conversion Error"
        "An unexpected error was encountered trying to build a value."],
     provider.zeroBackendResourceModel)
  /\ diag.HasError
       (diag.Append (provider.Diagnostics emptyResponse)
          (fst (tfsdk.Get (provider.Source unreadable)))) = true
  /\ fst (provider.Create r unreadable emptyResponse) = []
  /\ fst (provider.Delete r unreadable emptyResponse) = [].
Proof.
  intros r.
  pose proof (operations_stop_on_unreadable_source r unreadable emptyResponse
                _ _ eq_refl eq_refl) as (Hcreate & _ & _ & Hdelete).
  split; [reflexivity|]. split; [reflexivity|].
  split; [now rewrite Hcreate | now rewrite Hdelete].
Defined.

(** The example plan against a gateway that refuses the upsert. *)
Lemma refused_upsert_keeps_state_witness :
  let r := resourceRefusing "bad http response code: 500, body: " in
  let req := reading examplePlan in
  tfsdk.Get (provider.Source req) = ([], examplePlan)
  /\ diag.HasError (diag.Append (provider.Diagnostics emptyResponse) [])
     = false
  /\ (forall backend,
        In (provider.CallAddOrUpdateBackend backend)
          (fst (provider.Create r req emptyResponse)) ->
        AddOrUpdateBackend (provider.client r) backend
        = Some "bad http response code: 500, body: ")
  /\ snd (provider.Create r req emptyResponse)
     = {| provider.Diagnostics :=
            [diag.NewErrorDiagnostic "Client Error"
               "Unable to add backend, got error: bad http response code: 500, body: "];
          provider.State := None |}.
Proof.
  intros r req.
  assert (Hrefused : forall backend,
             In (provider.CallAddOrUpdateBackend backend)
               (fst (provider.Create r req emptyResponse)) ->
             AddOrUpdateBackend (provider.client r) backend
             = Some "bad http response code: 500, body: ").
  { intros backend _. reflexivity. }
  split; [reflexivity|]. split; [reflexivity|]. split; [exact Hrefused|].
  exact (proj1 (refused_upsert_keeps_state r req emptyResponse [] examplePlan
                  "bad http response code: 500, body: "
                  eq_refl eq_refl Hrefused)).
Defined.

(** Read and import against a gateway that cannot be reached: the tracked
    state stays. *)
Lemma failed_listing_keeps_state_witness :
  let r := resourceRefusing "cant send request: connection refused" in
  let req := reading trackedTrino1 in
  let resp := {| provider.Diagnostics := [];
                 provider.State := Some trackedTrino1 |} in
  tfsdk.Get (provider.Source req) = ([], trackedTrino1)
  /\ diag.HasError (diag.Append (provider.Diagnostics resp) []) = false
  /\ GetAllBackends (provider.client r)
     = inl "cant send request: connection refused"
  /\ snd (provider.Read r req resp)
     = Returned
         {| provider.Diagnostics :=
              [diag.NewErrorDiagnostic "Client Error"
                 "Unable to list backends, got error: cant send request: connection refused"];
            provider.State := Some trackedTrino1 |}.
Proof.
  intros r req resp.
  pose proof (failed_listing_keeps_state r req {| provider.ID := "trino-1" |}
                resp [] trackedTrino1 "cant send request: connection refused"
                eq_refl eq_refl eq_refl) as [Hread _].
  split; [reflexivity|]. split; [reflexivity|]. split; [reflexivity|].
  now rewrite Hread.
Defined.

(** Import of a name the gateway lists once. *)
Lemma ImportState_returns_iff_listed_witness :
  let backends := [Some (trino "trino-1" "x" "g" true "x")] in
  let r := resourceListing backends in
  let req := {| provider.ID := "trino-1" |} in
  GetAllBackends (provider.client r) = inr backends
  /\ ~ In None backends
  /\ (exists b, In (Some b) backends /\ Name b = provider.ID req)
  /\ exists resp', snd (provider.ImportState r req emptyResponse)
                   = Returned resp'.
Proof.
  intros backends r req.
  assert (Hnone : ~ In None backends).
  { intros [Habs | []]. discriminate Habs. }
  assert (Hlisted : exists b, In (Some b) backends /\ Name b = provider.ID req).
  { exists (trino "trino-1" "x" "g" true "x"). split; [now left | reflexivity]. }
  split; [reflexivity|]. split; [exact Hnone|]. split; [exact Hlisted|].
  exact (proj2 (proj1 (ImportState_returns_iff_listed r req emptyResponse
                         backends eq_refl)) (conj Hnone Hlisted)).
Defined.

(** Delete of the tracked "trino-1". *)
Lemma Delete_deletes_tracked_name_witness :
  let r := resourceOver [] in
  let req := reading trackedTrino1 in
  let resp := {| provider.Diagnostics := [];
                 provider.State := Some trackedTrino1 |} in
  tfsdk.Get (provider.Source req) = ([], trackedTrino1)
  /\ diag.HasError (diag.Append (provider.Diagnostics resp) []) = false
  /\ fst (provider.Delete r req resp) = [provider.CallDeleteBackend "trino-1"]
  /\ provider.State (snd (provider.Delete r req resp)) = Some trackedTrino1.
Proof.
  intros r req resp.
  pose proof (Delete_deletes_tracked_name r req resp [] trackedTrino1
                eq_refl eq_refl) as (Hcall & Hstate & _).
  split; [reflexivity|]. split; [reflexivity|].
  split; [exact Hcall | exact Hstate].
Defined.

(** Create of the example plan, then Read against a gateway that lists
    what was sent. *)
Lemma Create_then_Read_is_stable_witness :
  let sent := trino "trino-1" "http://localhost:8085" "some" false
                "http://localhost:8085" in
  let other := trino "trino-2" "http://c:8080" "adhoc" true "http://c:8080" in
  let r := resourceOver [sent; other] in
  let req := reading examplePlan in
  diag.HasError (provider.Diagnostics emptyResponse) = false
  /\ fst (provider.Create r req emptyResponse)
     = [provider.CallAddOrUpdateBackend sent]
  /\ AddOrUpdateBackend (provider.client r) sent = None
  /\ GetAllBackends (provider.client r)
     = inr (map Some ([] ++ sent :: [other])%list)
  /\ (forall b, In b [other] -> Name b <> "trino-1")
  /\ exists stored,
      provider.State (snd (provider.Create r req emptyResponse)) = Some stored
      /\ snd (provider.Read r (reading stored)
                (snd (provider.Create r req emptyResponse)))
         = Returned (snd (provider.Create r req emptyResponse)).
Proof.
  intros sent other r req.
  assert (Hafter : forall b, In b [other] -> Name b <> "trino-1").
  { intros b [<- | []]. discriminate. }
  split; [reflexivity|]. split; [reflexivity|]. split; [reflexivity|].
  split; [reflexivity|]. split; [exact Hafter|].
  exact (Create_then_Read_is_stable r emptyResponse types.StringUnknown
           types.StringUnknown "trino-1" "http://localhost:8085" "some" false
           sent [] [other] eq_refl eq_refl eq_refl eq_refl Hafter).
Defined.

(** Read of the tracked "trino-1", then Update with what was read. *)
Lemma Read_then_Update_resends_found_witness :
  let found := trino "trino-1" "x" "g" true "y" in
  let r := resourceOver [found] in
  let req := reading trackedTrino1 in
  let refreshed :=
    {| provider.Id := types.StringValue "trino-1";
       provider.Name := types.StringValue "trino-1";
       provider.ProxyTo := types.StringValue "x";
       provider.Active := types.BoolValue true;
       provider.RoutingGroup := types.StringValue "g";
       provider.ExternalUrl := types.StringValue "y" |} in
  let read := {| provider.Diagnostics := [];
                 provider.State := Some refreshed |} in
  tfsdk.Get (provider.Source req) = ([], trackedTrino1)
  /\ diag.HasError (diag.Append (provider.Diagnostics emptyResponse) [])
     = false
  /\ GetAllBackends (provider.client r) = inr [Some found]
  /\ snd (provider.Read r req emptyResponse) = Returned read
  /\ provider.State read = Some refreshed
  /\ exists records found',
      [Some found] = map Some records
      /\ lastMatching "trino-1" records = Some found'
      /\ fst (provider.Update r (reading refreshed) emptyResponse)
         = [provider.CallAddOrUpdateBackend found'].
Proof.
  intros found r req refreshed read.
  split; [reflexivity|]. split; [reflexivity|]. split; [reflexivity|].
  split; [reflexivity|]. split; [reflexivity|].
  exact (Read_then_Update_resends_found r req emptyResponse read emptyResponse
           [] trackedTrino1 refreshed [Some found]
           eq_refl eq_refl eq_refl eq_refl eq_refl eq_refl).
Defined.

(** The example plan against a gateway that answers 503 to everything. *)
Lemma gateway_refusal_reaches_diagnostics_witness :
  let tg := exampleClient (http.complete 503 "Service Unavailable") in
  let req := reading examplePlan in
  tfsdk.Get (provider.Source req) = ([], examplePlan)
  /\ diag.HasError (diag.Append (provider.Diagnostics emptyResponse) [])
     = false
  /\ (forall backend,
        exists requestBody, standin.json_Marshal backend = inr requestBody)
  /\ (forall subpath, standin.url_Parse (getFullUrl tg subpath) = None)
  /\ (503 <> 200)%Z
  /\ (forall request,
        httpclient tg request
        = inr (http.complete 503 "Service Unavailable"))
  /\ snd (provider.Create
            (H := trinoGatewayClientHttpImpl_client standin.json_Marshal
                    standin.json_Unmarshal standin.url_Parse)
            {| provider.client := tg |} req emptyResponse)
     = {| provider.Diagnostics :=
            [diag.NewErrorDiagnostic "Client Error"
               "Unable to add backend, got error: bad http response code: 503, body: Service Unavailable"];
          provider.State := None |}.
Proof.
  intros tg req.
  assert (Hmarshal : forall backend,
             exists requestBody,
               standin.json_Marshal backend = inr requestBody).
  { intros backend. eexists. reflexivity. }
  assert (Hcode : (503 <> 200)%Z) by discriminate.
  split; [reflexivity|]. split; [reflexivity|]. split; [exact Hmarshal|].
  split; [reflexivity|]. split; [exact Hcode|]. split; [reflexivity|].
  exact (proj1 (gateway_refusal_reaches_diagnostics standin.json_Marshal
                  standin.json_Unmarshal standin.url_Parse tg req
                  emptyResponse [] examplePlan 503 "Service Unavailable" None
                  eq_refl eq_refl Hmarshal (fun _ => eq_refl) Hcode
                  (fun _ => eq_refl))).
Defined.

(** Read of the tracked "trino-1" against a gateway that lists nothing,
    and against one that answers [[null]]. *)
Lemma Read_over_http_drops_unlisted_witness :
  let req := reading trackedTrino1 in
  let resp := {| provider.Diagnostics := [];
                 provider.State := Some trackedTrino1 |} in
  let over :=
    trinoGatewayClientHttpImpl_client standin.json_Marshal
      standin.json_Unmarshal standin.url_Parse in
  let empty := exampleClient (http.complete 200 "[]") in
  let nulls := exampleClient (http.complete 200 "[null]") in
  tfsdk.Get (provider.Source req) = ([], trackedTrino1)
  /\ diag.HasError (diag.Append (provider.Diagnostics resp) []) = false
  /\ (forall subpath, standin.url_Parse (getFullUrl empty subpath) = None)
  /\ (forall request, httpclient empty request = inr (http.complete 200 "[]"))
  /\ standin.json_Unmarshal "[]" = inr []
  /\ standin.json_Unmarshal "[null]" = inr [None]
  /\ ~ In None (@nil (option Backend))
  /\ In None [@None Backend]
  /\ snd (provider.Read (H := over) {| provider.client := empty |} req resp)
     = Returned {| provider.Diagnostics := []; provider.State := None |}
  /\ snd (provider.Read (H := over) {| provider.client := nulls |} req resp)
     = Panicked nilDereference resp.
Proof.
  intros req resp over empty nulls.
  assert (Hnone : ~ In None (@nil (option Backend))) by (intros []).
  assert (Hnil : In None [@None Backend]) by now left.
  assert (Hempty : forall b : Backend, In (Some b) [] -> Name b <> "trino-1")
    by (intros b []).
  assert (Hnulls : forall b : Backend,
             In (Some b) [None] -> Name b <> "trino-1").
  { intros b [Habs | []]. discriminate Habs. }
  split; [reflexivity|]. split; [reflexivity|]. split; [reflexivity|].
  split; [reflexivity|]. split; [reflexivity|]. split; [reflexivity|].
  split; [exact Hnone|]. split; [exact Hnil|]. split.
  - exact (proj1 (Read_over_http_drops_unlisted standin.json_Marshal
                    standin.json_Unmarshal standin.url_Parse empty req resp []
                    trackedTrino1 "[]" [] eq_refl eq_refl (fun _ => eq_refl)
                    (fun _ => eq_refl) eq_refl Hempty) Hnone).
  - exact (proj2 (Read_over_http_drops_unlisted standin.json_Marshal
                    standin.json_Unmarshal standin.url_Parse nulls req resp []
                    trackedTrino1 "[null]" [None] eq_refl eq_refl
                    (fun _ => eq_refl) (fun _ => eq_refl) eq_refl Hnulls)
             Hnil).
Defined.

(** A configuration with credentials and no endpoint. *)
Lemma Configure_requires_endpoint_witness :
  let data :=
    {| provider.Endpoint := types.StringNull;
       provider.Login := types.StringValue "admin";
       provider.Password := types.StringNull |} in
  let req := configuring data in
  tfsdk.Get (provider.Config req) = ([], data)
  /\ diag.HasError
       (diag.Append (provider.ConfigureDiagnostics emptyConfigureResponse) [])
     = false
  /\ types.IsNull (provider.Endpoint data) = true
  /\ provider.Configure (standin.server (inl "connection refused")) req
       emptyConfigureResponse
     = {| provider.ConfigureDiagnostics :=
            [diag.NewErrorDiagnostic
               "Endpoint for trino gateway client is not specify"
               "Cant configure trino gateway client: endpoint is not specified"];
          provider.DataSourceData := None;
          provider.ResourceData := None |}.
Proof.
  intros data req.
  split; [reflexivity|]. split; [reflexivity|]. split; [reflexivity|].
  exact (Configure_requires_endpoint (standin.server (inl "connection refused"))
           req emptyConfigureResponse [] data eq_refl eq_refl eq_refl).
Defined.

(** The example configuration: the resource receives the client of the
    provider. *)
Lemma provider_client_reaches_resource_witness :
  let data :=
    {| provider.Endpoint := types.StringValue "http://127.0.0.1:18080";
       provider.Login := types.StringNull;
       provider.Password := types.StringNull |} in
  let out :=
    provider.Configure (standin.server (inl "connection refused"))
      (configuring data) emptyConfigureResponse in
  diag.HasError (provider.ConfigureDiagnostics out) = false
  /\ exists client,
      endpoint client = "http://127.0.0.1:18080"
      /\ BackendResource_Configure None
           (handedOver (provider.ResourceData out)) []
         = (Some client, []).
Proof.
  intros data out.
  split; [reflexivity|].
  destruct (proj1 (provider_client_reaches_resource
                     (standin.server (inl "connection refused"))
                     (configuring data) emptyConfigureResponse None [])
              eq_refl)
    as (client & _ & _ & Hendpoint & Hresource).
  exists client. split; [exact Hendpoint | exact Hresource].
Defined.
